(** * USB power switch and filter (MIC2545A): the firmware's main loop

    A shallow embedding of [firmware/main.c].  The eight [uint8_t] locals of
    [main] and the two port registers the loop writes ([PORTB], [DDRB]) form
    the machine state; one pass through the body of [while(1)] is the
    function [loop_body], applied to what the hardware supplies in that pass:
    whether the watchdog has timed out ([WDT_TIMEDOUT()]) and the value read
    from [PINB].  The sleep at the bottom of the loop changes none of the
    modelled variables and is left out. *)

From Stdlib Require Import ZArith Bool List Lia.
Import ListNotations.
Local Open Scope Z_scope.

(** ** C integers *)

(** Conversion to [uint8_t]. *)
Definition u8 (x : Z) : Z := x mod 256.

(** C's [!x] and the truth value of [x] in a condition. *)
Definition c_not (x : Z) : Z := if x =? 0 then 1 else 0.
Definition c_true (x : Z) : bool := negb (x =? 0).

(** [(uint8_t)(a - b)]: the operands are promoted to [int], subtracted, and
    the difference is converted back to eight bits. *)
Definition elapsed8 (a b : Z) : Z := u8 (a - b).

(** ** Register bits and the macros of main.c *)

(** Bit numbers of port B, as <avr/io.h> gives them for the ATtiny25/45/85. *)
Module AVR.
Definition PORTB0 : Z := 0.
Definition PORTB1 : Z := 1.
Definition PINB2 : Z := 2.
Definition PORTB3 : Z := 3.
Definition PINB4 : Z := 4.
Definition PORTB4 : Z := 4.
Definition DDB0 : Z := 0.
Definition DDB1 : Z := 1.
Definition DDB3 : Z := 3.
Definition DDB4 : Z := 4.
Definition PORTB2 : Z := 2.
End AVR.
Import AVR.

Definition _BV (bit : Z) : Z := Z.shiftl 1 bit.

Definition LED_OFF : Z := 0.
Definition LED_RED : Z := _BV PORTB0.
Definition LED_GREEN : Z := _BV PORTB1.
Definition LED_MASK : Z := Z.lnot (Z.lor (_BV PORTB0) (_BV PORTB1)).

Definition PIN_BUTTON : Z := _BV PINB2.
Definition PIN_FLAG : Z := _BV PINB4.

(** The locals of [main] together with the two I/O registers. *)
Record state : Type := mkState {
  now : Z;
  btnState : Z;
  btnTime : Z;
  flagTriggered : Z;
  flagTrigTime : Z;
  flagSet : Z;
  powerOn : Z;
  debounceOk : Z;
  PORTB : Z;
  DDRB : Z
}.

Definition set_now (v : Z) (s : state) : state :=
  mkState v (btnState s) (btnTime s) (flagTriggered s) (flagTrigTime s)
          (flagSet s) (powerOn s) (debounceOk s) (PORTB s) (DDRB s).
Definition set_btnState (v : Z) (s : state) : state :=
  mkState (now s) v (btnTime s) (flagTriggered s) (flagTrigTime s)
          (flagSet s) (powerOn s) (debounceOk s) (PORTB s) (DDRB s).
Definition set_btnTime (v : Z) (s : state) : state :=
  mkState (now s) (btnState s) v (flagTriggered s) (flagTrigTime s)
          (flagSet s) (powerOn s) (debounceOk s) (PORTB s) (DDRB s).
Definition set_flagTriggered (v : Z) (s : state) : state :=
  mkState (now s) (btnState s) (btnTime s) v (flagTrigTime s)
          (flagSet s) (powerOn s) (debounceOk s) (PORTB s) (DDRB s).
Definition set_flagTrigTime (v : Z) (s : state) : state :=
  mkState (now s) (btnState s) (btnTime s) (flagTriggered s) v
          (flagSet s) (powerOn s) (debounceOk s) (PORTB s) (DDRB s).
Definition set_flagSet (v : Z) (s : state) : state :=
  mkState (now s) (btnState s) (btnTime s) (flagTriggered s) (flagTrigTime s)
          v (powerOn s) (debounceOk s) (PORTB s) (DDRB s).
Definition set_powerOn (v : Z) (s : state) : state :=
  mkState (now s) (btnState s) (btnTime s) (flagTriggered s) (flagTrigTime s)
          (flagSet s) v (debounceOk s) (PORTB s) (DDRB s).
Definition set_debounceOk (v : Z) (s : state) : state :=
  mkState (now s) (btnState s) (btnTime s) (flagTriggered s) (flagTrigTime s)
          (flagSet s) (powerOn s) v (PORTB s) (DDRB s).
Definition set_PORTB (v : Z) (s : state) : state :=
  mkState (now s) (btnState s) (btnTime s) (flagTriggered s) (flagTrigTime s)
          (flagSet s) (powerOn s) (debounceOk s) v (DDRB s).
Definition set_DDRB (v : Z) (s : state) : state :=
  mkState (now s) (btnState s) (btnTime s) (flagTriggered s) (flagTrigTime s)
          (flagSet s) (powerOn s) (debounceOk s) (PORTB s) v.

(** [LEDSET(state)]: [PORTB = (PORTB & LED_MASK) | state]. *)
Definition LEDSET (led : Z) (s : state) : state :=
  set_PORTB (u8 (Z.lor (Z.land (PORTB s) LED_MASK) led)) s.

(** [POWERON()]: [PORTB &= ~_BV(PORTB3)]; the enable line is active low. *)
Definition POWERON (s : state) : state :=
  set_PORTB (u8 (Z.land (PORTB s) (Z.lnot (_BV PORTB3)))) s.

(** [POWEROFF()]: [PORTB |= _BV(PORTB3)]. *)
Definition POWEROFF (s : state) : state :=
  set_PORTB (u8 (Z.lor (PORTB s) (_BV PORTB3))) s.

(** [FLAGSET()]: B4 as output low (open drain). *)
Definition FLAGSET (s : state) : state :=
  let s1 := set_PORTB (u8 (Z.land (PORTB s) (Z.lnot (_BV PORTB4)))) s in
  set_DDRB (u8 (Z.lor (DDRB s1) (_BV DDB4))) s1.

(** [FLAGCLEAR()]: B4 as input with pull-up. *)
Definition FLAGCLEAR (s : state) : state :=
  let s1 := set_DDRB (u8 (Z.land (DDRB s) (Z.lnot (_BV DDB4)))) s in
  set_PORTB (u8 (Z.lor (PORTB s1) (_BV PORTB4))) s1.

(** ** What the hardware supplies to one pass of the loop *)

Record input : Type := mkInput {
  WDT_TIMEDOUT : bool;   (* the watchdog interrupt has fired since the last reset *)
  PINB : Z               (* the value read from the pin register *)
}.

Definition btnStateNow (i : input) : Z := c_not (Z.land (PINB i) PIN_BUTTON).
Definition flagStateNow (i : input) : Z := c_not (Z.land (PINB i) PIN_FLAG).

(** ** The body of [while(1)] *)

(** Lines 103-107: the 16 ms time base. *)
Definition timer_stuff (i : input) (s : state) : state :=
  if WDT_TIMEDOUT i then set_now (u8 (now s + 1)) s else s.

(** Lines 115-137: button processing and debouncing. *)
Definition button_processing (btnNow : Z) (s : state) : state :=
  let s1 :=
    if c_true btnNow then
      let s2 :=
        if c_true (c_not (btnState s)) then
          if c_true (debounceOk s) then
            let s3 := set_debounceOk 0 s in
            if c_true (flagTriggered s3)
            then set_flagTriggered 0 s3
            else set_powerOn (c_not (powerOn s3)) s3
          else s
        else s in
      set_btnTime (now s2) s2
    else
      if 3 <=? elapsed8 (now s) (btnTime s)
      then set_debounceOk 1 s
      else s in
  set_btnState btnNow s1.

(** Lines 139-157: the fault flag and the pulse driven back onto its pin. *)
Definition flag_processing (flagNow : Z) (s : state) : state :=
  let s1 :=
    if c_true flagNow then
      let s2 := if c_true (c_not (flagSet s))
                then set_flagTrigTime (now s) s else s in
      let s3 := set_flagTriggered 1 s2 in
      let s4 := set_powerOn 0 s3 in
      let s5 := FLAGSET s4 in
      set_flagSet 1 s5
    else s in
  if c_true (flagTriggered s1) && c_true (flagSet s1)
     && (2 <=? elapsed8 (now s1) (flagTrigTime s1))
  then set_flagSet 0 (FLAGCLEAR s1)
  else s1.

(** Lines 160-172: power and LEDs. *)
Definition power_and_leds (s : state) : state :=
  if c_true (powerOn s) then
    POWERON (LEDSET LED_GREEN s)
  else
    let s1 := POWEROFF s in
    if c_true (flagTriggered s1)
    then LEDSET LED_RED s1
    else LEDSET LED_OFF s1.

Definition loop_body (i : input) (s : state) : state :=
  power_and_leds
    (flag_processing (flagStateNow i)
       (button_processing (btnStateNow i)
          (timer_stuff i s))).

(** Successive passes of the loop, one per input. *)
Fixpoint run (s : state) (ins : list input) : state :=
  match ins with
  | [] => s
  | i :: rest => run (loop_body i s) rest
  end.

(** ** Start-up (lines 69-96) *)

(** The port set-up and the power-on flash, from the reset value 0 of both
    registers. *)
Definition power_on_flashy (s : state) : state :=
  LEDSET LED_OFF
    (Nat.iter 4 (fun s' => LEDSET LED_GREEN (LEDSET LED_RED s')) s).

Definition init_state : state :=
  let ddrb := u8 (Z.lor 0 (Z.lor (Z.lor (_BV DDB0) (_BV DDB1)) (_BV DDB3))) in
  let portb := u8 (Z.lor 0 (Z.lor (Z.lor (_BV PORTB2) (_BV PORTB3)) (_BV PORTB4))) in
  power_on_flashy (mkState 0 0 0 0 0 0 0 1 portb ddrb).

(** ** Observations on the pins *)

(** The two LED pins B0 and B1, as the value [LEDSET] writes to them. *)
Definition led_bits (s : state) : Z :=
  Z.land (PORTB s) (Z.lor (_BV PORTB0) (_BV PORTB1)).

(** The enable output B3 is active low: power is on when the bit is clear. *)
Definition power_output_active (s : state) : bool :=
  negb (Z.testbit (PORTB s) PORTB3).

(** The /FLAG pin B4: an output driving low, or an input with its pull-up. *)
Definition flag_driven_low (s : state) : bool :=
  Z.testbit (DDRB s) DDB4 && negb (Z.testbit (PORTB s) PORTB4).
Definition flag_released (s : state) : bool :=
  negb (Z.testbit (DDRB s) DDB4) && Z.testbit (PORTB s) PORTB4.

(** The samples of one pass. *)
Definition pressed (i : input) : bool := c_true (btnStateNow i).
Definition fault_asserted (i : input) : bool := c_true (flagStateNow i).

(** The innermost branch of the button code (lines 121-126) is taken:
    a press edge is accepted. *)
Definition press_accepted (btnNow : Z) (s : state) : bool :=
  c_true btnNow && c_true (c_not (btnState s)) && c_true (debounceOk s).

(** A toggle event in a pass of the loop: the button code changed [powerOn]
    or [flagTriggered]. *)
Definition toggle_event (i : input) (s : state) : bool :=
  let s1 := timer_stuff i s in
  let s2 := button_processing (btnStateNow i) s1 in
  negb ((powerOn s2 =? powerOn s1) && (flagTriggered s2 =? flagTriggered s1)).

(** Number of toggle events in a run. *)
Fixpoint count_toggles (s : state) (ins : list input) : nat :=
  match ins with
  | [] => O
  | i :: rest =>
      ((if toggle_event i s then 1 else 0) + count_toggles (loop_body i s) rest)%nat
  end.

(** Number of watchdog ticks counted in a run. *)
Fixpoint ticks (ins : list input) : Z :=
  match ins with
  | [] => 0
  | i :: rest => (if WDT_TIMEDOUT i then 1 else 0) + ticks rest
  end.

(** The pin levels of a sample: both inputs are active low, the other pins
    read 0.  [sample tick btn fault] is a pass in which the watchdog has
    ticked ([tick]), the button is held ([btn]) and /FLAG is low ([fault]). *)
Definition sample (tick btn fault : bool) : input :=
  mkInput tick (Z.lor (if btn then 0 else PIN_BUTTON)
                      (if fault then 0 else PIN_FLAG)).

(** B4 is one pin: it is read as the fault input (lines 23 and 112) and
    it is the pin [FLAGSET()] drives low (lines 31-35, 67).  The pin
    register reads the level on the pin, so a pass that starts with the
    pin driven low samples the fault asserted.  [pin_coupled s ins] holds
    of the runs from [s] in which every sample agrees with that. *)
Fixpoint pin_coupled (s : state) (ins : list input) : bool :=
  match ins with
  | [] => true
  | i :: rest =>
      implb (flag_driven_low s) (fault_asserted i)
      && pin_coupled (loop_body i s) rest
  end.

(** With a pulse active the pin is driven low, fewer than two ticks have
    gone by since it started, and the fault is latched. *)
Definition pulse_bounded (s : state) : Prop :=
  c_true (flagSet s) = true ->
  flag_driven_low s = true /\
  elapsed8 (now s) (flagTrigTime s) < 2 /\
  c_true (flagTriggered s) = true.

(** A fault at tick 0 starts the pulse; at tick 1 a press is accepted and
    the sample reads the fault input high, although the pin is being
    driven low: a sample the pin cannot deliver. *)
Definition fault_then_ack : list input :=
  [sample false false true; sample true true false].

(** Scenario A up to tick 3: a press at tick 0, a release at tick 1, a
    press attempted at tick 2, and the button sample [b3] at tick 3. *)
Definition scenario_A (b3 : bool) : list input :=
  [sample false true false; sample true false false;
   sample true true false; sample true b3 false].

(** While the last sample was a pressed one, [debounceOk] is clear. *)
Definition held_blocks (s : state) : Prop :=
  c_true (btnState s) = true -> c_true (debounceOk s) = false.

(** Scenario D: the state after a press at tick 254, the first since
    power-on. *)
Definition pressed_at_254 : state :=
  run init_state (repeat (sample true false false) 253
                  ++ [sample true true false]).

(** [powerOn] and [flagTriggered] are not both set. *)
Definition not_both (s : state) : Prop :=
  c_true (powerOn s) && c_true (flagTriggered s) = false.

(** ** The rest of [main]: set-up, flash and the two-step pin macros *)

(** Lines 69-70: the port set-up, [DDRB |= ...] then [PORTB |= ...]. *)
Definition port_setup (s : state) : state :=
  let s1 := set_DDRB (u8 (Z.lor (DDRB s)
              (Z.lor (Z.lor (_BV DDB0) (_BV DDB1)) (_BV DDB3)))) s in
  set_PORTB (u8 (Z.lor (PORTB s1)
              (Z.lor (Z.lor (_BV PORTB2) (_BV PORTB3)) (_BV PORTB4)))) s1.

(** Lines 89-96 with both registers at their reset value. *)
Definition reset_state : state := mkState 0 0 0 0 0 0 0 1 0 0.

(** Lines 73-80, state by state: what the pins hold after each [LEDSET] of
    the power-on flash. *)
Fixpoint flash_cycles (n : nat) (s : state) : list state :=
  match n with
  | O => []
  | S k =>
      let r := LEDSET LED_RED s in
      let g := LEDSET LED_GREEN r in
      r :: g :: flash_cycles k g
  end.

Definition flash_trace (s : state) : list state :=
  flash_cycles 4 s ++ [LEDSET LED_OFF (last (flash_cycles 4 s) s)].

(** [FLAGSET()] and [FLAGCLEAR()] after their first statement. *)
Definition FLAGSET_first (s : state) : state :=
  set_PORTB (u8 (Z.land (PORTB s) (Z.lnot (_BV PORTB4)))) s.
Definition FLAGCLEAR_first (s : state) : state :=
  set_DDRB (u8 (Z.land (DDRB s) (Z.lnot (_BV DDB4)))) s.

(** The /FLAG pin as an output driving high: what an open-drain pin must
    never be. *)
Definition flag_driven_high (s : state) : bool :=
  Z.testbit (DDRB s) DDB4 && Z.testbit (PORTB s) PORTB4.

(** The values a [uint8_t] holds, and the two values the flags take. *)
Definition is_u8 (x : Z) : Prop := 0 <= x < 256.
Definition is_flag (x : Z) : Prop := x = 0 \/ x = 1.

Definition well_formed (s : state) : Prop :=
  is_u8 (now s) /\ is_flag (btnState s) /\ is_u8 (btnTime s) /\
  is_flag (flagTriggered s) /\ is_u8 (flagTrigTime s) /\
  is_flag (flagSet s) /\ is_flag (powerOn s) /\ is_flag (debounceOk s) /\
  is_u8 (PORTB s) /\ is_u8 (DDRB s).

(** The pin is driven low exactly while [flagSet] is set, and is an input
    with its pull-up otherwise. *)
Definition pin_follows_flagSet (s : state) : Prop :=
  flag_driven_low s = c_true (flagSet s) /\
  flag_released s = negb (c_true (flagSet s)).

(** ** Proof tools *)

(** Read the fields back after assignments and macros. *)
Ltac proj :=
  cbn [now btnState btnTime flagTriggered flagTrigTime flagSet powerOn
       debounceOk PORTB DDRB andb negb
       set_now set_btnState set_btnTime set_flagTriggered
       set_flagTrigTime set_flagSet set_powerOn set_debounceOk
       set_PORTB set_DDRB FLAGCLEAR FLAGSET POWEROFF POWERON LEDSET].

(** Split on the condition of an innermost conditional. *)
Ltac case_if :=
  match goal with
  | |- context [if ?c then _ else _] =>
      lazymatch c with
      | context [if _ then _ else _] => fail
      | _ => destruct c eqn:?
      end
  end.

Ltac crunch := proj; repeat (case_if; proj).

Lemma c_true_c_not x : c_true (c_not x) = negb (c_true x).
Proof. unfold c_true, c_not. destruct (x =? 0); reflexivity. Qed.

Lemma c_true_iff x : c_true x = true <-> x <> 0.
Proof.
  unfold c_true. destruct (Z.eqb_spec x 0); simpl; split; intros; congruence.
Qed.

Lemma c_true_false_iff x : c_true x = false <-> x = 0.
Proof.
  unfold c_true. destruct (Z.eqb_spec x 0); simpl; split; intros; congruence.
Qed.

Lemma testbit_u8 x n : 0 <= n < 8 -> Z.testbit (u8 x) n = Z.testbit x n.
Proof.
  intros H. unfold u8. change 256 with (2 ^ 8).
  apply Z.mod_pow2_bits_low. lia.
Qed.

Lemma land3_eq x c :
  0 <= c < 4 ->
  Z.testbit x 0 = Z.testbit c 0 ->
  Z.testbit x 1 = Z.testbit c 1 ->
  Z.land x 3 = c.
Proof.
  intros Hc H0 H1. apply Z.bits_inj'. intros n Hn.
  rewrite Z.land_spec.
  destruct (Z.eq_dec n 0) as [->|]; [rewrite H0; simpl; apply andb_true_r|].
  destruct (Z.eq_dec n 1) as [->|]; [rewrite H1; simpl; apply andb_true_r|].
  change 3 with (Z.ones 2). rewrite Z.ones_spec_high by lia.
  rewrite andb_false_r. symmetry.
  destruct (Z.eq_dec c 0) as [->|]; [apply Z.bits_0|].
  assert (Z.log2 c < 2) by (apply Z.log2_lt_pow2; simpl; lia).
  apply Z.bits_above_log2; lia.
Qed.

(** *** The timer *)

Lemma timer_now i s :
  now (timer_stuff i s) = if WDT_TIMEDOUT i then u8 (now s + 1) else now s.
Proof. unfold timer_stuff. destruct (WDT_TIMEDOUT i); reflexivity. Qed.

Lemma timer_frame i s :
  let s' := timer_stuff i s in
  btnState s' = btnState s /\ btnTime s' = btnTime s /\
  flagTriggered s' = flagTriggered s /\ flagTrigTime s' = flagTrigTime s /\
  flagSet s' = flagSet s /\ powerOn s' = powerOn s /\
  debounceOk s' = debounceOk s /\ PORTB s' = PORTB s /\ DDRB s' = DDRB s.
Proof. unfold timer_stuff. destruct (WDT_TIMEDOUT i); repeat split. Qed.

(** *** The button code *)

Lemma button_frame b s :
  let s' := button_processing b s in
  now s' = now s /\ btnState s' = b /\ flagTrigTime s' = flagTrigTime s /\
  flagSet s' = flagSet s /\ PORTB s' = PORTB s /\ DDRB s' = DDRB s.
Proof. unfold button_processing. crunch; repeat split. Qed.

Lemma button_btnTime b s :
  btnTime (button_processing b s) = if c_true b then now s else btnTime s.
Proof. unfold button_processing. crunch; reflexivity. Qed.

Lemma button_debounceOk b s :
  debounceOk (button_processing b s) =
  if c_true b then (if press_accepted b s then 0 else debounceOk s)
  else if 3 <=? elapsed8 (now s) (btnTime s) then 1 else debounceOk s.
Proof.
  unfold button_processing, press_accepted.
  destruct (c_true b), (c_true (c_not (btnState s))), (c_true (debounceOk s));
    crunch; reflexivity.
Qed.

Lemma button_flagTriggered b s :
  flagTriggered (button_processing b s) =
  if press_accepted b s then 0 else flagTriggered s.
Proof.
  unfold button_processing, press_accepted.
  destruct (c_true b), (c_true (c_not (btnState s))), (c_true (debounceOk s));
    crunch; try reflexivity.
  apply c_true_false_iff in Heqb0. congruence.
Qed.

Lemma button_powerOn b s :
  powerOn (button_processing b s) =
  if press_accepted b s && negb (c_true (flagTriggered s))
  then c_not (powerOn s) else powerOn s.
Proof.
  unfold button_processing, press_accepted.
  destruct (c_true b), (c_true (c_not (btnState s))), (c_true (debounceOk s));
    crunch; reflexivity.
Qed.

(** *** The fault flag code *)

Lemma flag_frame f s :
  let s' := flag_processing f s in
  now s' = now s /\ btnState s' = btnState s /\ btnTime s' = btnTime s /\
  debounceOk s' = debounceOk s.
Proof. unfold flag_processing. crunch; repeat split. Qed.

Lemma flag_flagTriggered f s :
  flagTriggered (flag_processing f s) = if c_true f then 1 else flagTriggered s.
Proof. unfold flag_processing. crunch; reflexivity. Qed.

Lemma flag_powerOn f s :
  powerOn (flag_processing f s) = if c_true f then 0 else powerOn s.
Proof. unfold flag_processing. crunch; reflexivity. Qed.

Lemma flag_flagTrigTime f s :
  flagTrigTime (flag_processing f s) =
  if c_true f && negb (c_true (flagSet s)) then now s else flagTrigTime s.
Proof.
  unfold flag_processing. rewrite c_true_c_not.
  destruct (c_true f), (c_true (flagSet s)); simpl; crunch; reflexivity.
Qed.

Lemma flag_flagSet f s :
  flagSet (flag_processing f s) =
  let fs := if c_true f then 1 else flagSet s in
  let ft := if c_true f then 1 else flagTriggered s in
  if c_true ft && c_true fs
     && (2 <=? elapsed8 (now s) (flagTrigTime (flag_processing f s)))
  then 0 else fs.
Proof.
  rewrite flag_flagTrigTime. unfold flag_processing. rewrite c_true_c_not.
  destruct (c_true f), (c_true (flagSet s)) eqn:E; crunch;
    try reflexivity; try congruence.
Qed.

(** The /FLAG pin follows [flagSet] whenever the flag code touches it. *)
Lemma FLAGSET_pin s : flag_driven_low (FLAGSET s) = true.
Proof.
  unfold flag_driven_low, FLAGSET. proj.
  rewrite !testbit_u8 by (unfold DDB4, PORTB4; lia).
  rewrite Z.lor_spec, Z.land_spec. unfold DDB4, PORTB4.
  change (Z.testbit (_BV 4) 4) with true.
  change (Z.testbit (Z.lnot (_BV 4)) 4) with false.
  rewrite orb_true_r, andb_false_r. reflexivity.
Qed.

Lemma FLAGCLEAR_pin s : flag_released (FLAGCLEAR s) = true.
Proof.
  unfold flag_released, FLAGCLEAR. proj.
  rewrite !testbit_u8 by (unfold DDB4, PORTB4; lia).
  rewrite Z.lor_spec, Z.land_spec. unfold DDB4, PORTB4.
  change (Z.testbit (_BV 4) 4) with true.
  change (Z.testbit (Z.lnot (_BV 4)) 4) with false.
  rewrite orb_true_r, andb_false_r. reflexivity.
Qed.

Lemma pin_set_flagSet v s :
  flag_driven_low (set_flagSet v s) = flag_driven_low s /\
  flag_released (set_flagSet v s) = flag_released s.
Proof. split; reflexivity. Qed.

(** The pin after the flag code, whenever the pin was consistent with
    [flagSet] before or the fault input is sampled asserted. *)
Lemma flag_pin f s :
  (c_true (flagSet s) = true -> flag_driven_low s = true) ->
  let s' := flag_processing f s in
  if c_true (flagSet s') then flag_driven_low s' = true
  else (c_true f || c_true (flagSet s) = true -> flag_released s' = true).
Proof.
  intros Hpin. cbv zeta. unfold flag_processing.
  set (s1 := if c_true f then _ else s).
  assert (H1 : c_true (flagSet s1) = true -> flag_driven_low s1 = true).
  { subst s1. destruct (c_true f); [intros _|exact Hpin].
    rewrite (proj1 (pin_set_flagSet _ _)). apply FLAGSET_pin. }
  assert (H2 : c_true f || c_true (flagSet s) = true ->
               c_true (flagSet s1) = true).
  { subst s1. destruct (c_true f); simpl; [reflexivity|tauto]. }
  clearbody s1.
  destruct (c_true (flagTriggered s1) && c_true (flagSet s1)
            && (2 <=? elapsed8 (now s1) (flagTrigTime s1))) eqn:E.
  - change (c_true (flagSet (set_flagSet 0 (FLAGCLEAR s1)))) with false.
    cbv iota. intros _.
    rewrite (proj2 (pin_set_flagSet _ _)). apply FLAGCLEAR_pin.
  - destruct (c_true (flagSet s1)) eqn:E1; [auto|].
    intros H. apply H2 in H. discriminate.
Qed.

(** *** Power and LEDs *)

Lemma leds_frame s :
  let s' := power_and_leds s in
  now s' = now s /\ btnState s' = btnState s /\ btnTime s' = btnTime s /\
  flagTriggered s' = flagTriggered s /\ flagTrigTime s' = flagTrigTime s /\
  flagSet s' = flagSet s /\ powerOn s' = powerOn s /\
  debounceOk s' = debounceOk s /\ DDRB s' = DDRB s.
Proof. unfold power_and_leds. crunch; repeat split. Qed.

(** Bit [n] of [PORTB] after each of the three macros. *)
Lemma LEDSET_bit led s n :
  0 <= n < 8 ->
  Z.testbit (PORTB (LEDSET led s)) n =
  Z.testbit (PORTB s) n && negb (n <? 2) || Z.testbit led n.
Proof.
  intros Hn. unfold LEDSET. proj. rewrite testbit_u8 by lia.
  rewrite Z.lor_spec, Z.land_spec. unfold LED_MASK.
  rewrite Z.lnot_spec by lia. change (Z.lor (_BV PORTB0) (_BV PORTB1)) with (Z.ones 2).
  destruct (Z.ltb_spec n 2).
  - rewrite Z.ones_spec_low by lia. reflexivity.
  - rewrite Z.ones_spec_high by lia. reflexivity.
Qed.

Lemma POWERON_bit s n :
  0 <= n < 8 ->
  Z.testbit (PORTB (POWERON s)) n = Z.testbit (PORTB s) n && negb (n =? PORTB3).
Proof.
  intros Hn. unfold POWERON. proj. rewrite testbit_u8 by lia.
  rewrite Z.land_spec, Z.lnot_spec by lia. unfold _BV.
  rewrite Z.shiftl_1_l, Z.pow2_bits_eqb by (unfold PORTB3; lia).
  rewrite Z.eqb_sym. reflexivity.
Qed.

Lemma POWEROFF_bit s n :
  0 <= n < 8 ->
  Z.testbit (PORTB (POWEROFF s)) n = Z.testbit (PORTB s) n || (n =? PORTB3).
Proof.
  intros Hn. unfold POWEROFF. proj. rewrite testbit_u8 by lia.
  rewrite Z.lor_spec. unfold _BV.
  rewrite Z.shiftl_1_l, Z.pow2_bits_eqb by (unfold PORTB3; lia).
  rewrite Z.eqb_sym. reflexivity.
Qed.

Lemma small_bits_high led n : 0 <= led < 4 -> 2 <= n -> Z.testbit led n = false.
Proof.
  intros Hled Hn.
  destruct (Z.eq_dec led 0) as [->|]; [apply Z.bits_0|].
  assert (Z.log2 led < 2) by (apply Z.log2_lt_pow2; simpl; lia).
  apply Z.bits_above_log2; lia.
Qed.

Lemma leds_bit s n :
  0 <= n < 8 ->
  Z.testbit (PORTB (power_and_leds s)) n =
  if n <? 2 then
    Z.testbit (if c_true (powerOn s) then LED_GREEN
               else if c_true (flagTriggered s) then LED_RED else LED_OFF) n
  else if n =? PORTB3 then negb (c_true (powerOn s))
  else Z.testbit (PORTB s) n.
Proof.
  intros Hn. unfold power_and_leds.
  destruct (c_true (powerOn s)).
  - rewrite POWERON_bit, LEDSET_bit by lia.
    unfold PORTB3. change LED_GREEN with 2.
    destruct (Z.ltb_spec n 2), (Z.eqb_spec n 3); try lia;
      try (rewrite (small_bits_high 2 n) by lia);
      cbn [negb]; destruct (Z.testbit (PORTB s) n), (Z.testbit 2 n);
      reflexivity.
  - cbv zeta.
    assert (forall led, 0 <= led < 4 ->
              Z.testbit (PORTB (LEDSET led (POWEROFF s))) n =
              if n <? 2 then Z.testbit led n
              else if n =? PORTB3 then true else Z.testbit (PORTB s) n) as H.
    { intros led Hled. rewrite LEDSET_bit, POWEROFF_bit by lia.
      unfold PORTB3.
      destruct (Z.ltb_spec n 2), (Z.eqb_spec n 3); try lia;
        try (rewrite (small_bits_high led n) by lia);
        cbn [negb]; destruct (Z.testbit (PORTB s) n), (Z.testbit led n);
        reflexivity. }
    change (flagTriggered (POWEROFF s)) with (flagTriggered s).
    destruct (c_true (flagTriggered s)); apply H; cbv; split; congruence.
Qed.

(** The outputs after the power-and-LED code: the LED pins, the enable pin
    and the untouched /FLAG pin. *)
Lemma leds_outputs s :
  let s' := power_and_leds s in
  led_bits s' = (if c_true (powerOn s) then LED_GREEN
                 else if c_true (flagTriggered s) then LED_RED else LED_OFF) /\
  power_output_active s' = c_true (powerOn s) /\
  flag_driven_low s' = flag_driven_low s /\
  flag_released s' = flag_released s.
Proof.
  cbv zeta. unfold led_bits, power_output_active, flag_driven_low, flag_released.
  destruct (leds_frame s) as (_ & _ & _ & _ & _ & _ & _ & _ & HD).
  rewrite HD. unfold PORTB4.
  rewrite (leds_bit s 4), (leds_bit s PORTB3) by (unfold PORTB3; lia).
  repeat split.
  - change (Z.lor (_BV PORTB0) (_BV PORTB1)) with 3.
    apply land3_eq.
    + destruct (c_true (powerOn s)), (c_true (flagTriggered s)); cbv;
        split; congruence.
    + now rewrite leds_bit by lia.
    + now rewrite leds_bit by lia.
  - unfold PORTB3. simpl. apply negb_involutive.
Qed.

(** *** One pass of the loop, field by field *)

Lemma accepted_timer b i s :
  press_accepted b (timer_stuff i s) = press_accepted b s.
Proof. unfold timer_stuff. destruct (WDT_TIMEDOUT i); reflexivity. Qed.

Lemma toggle_event_accepted i s :
  toggle_event i s = press_accepted (btnStateNow i) s.
Proof.
  unfold toggle_event. cbv zeta.
  rewrite button_powerOn, button_flagTriggered, accepted_timer.
  destruct (timer_frame i s) as (_ & _ & Hf & _ & _ & Hp & _).
  rewrite Hf, Hp.
  destruct (press_accepted (btnStateNow i) s); cbn [andb].
  - destruct (c_true (flagTriggered s)) eqn:E; cbn [negb].
    + apply c_true_iff in E. rewrite Z.eqb_refl. cbn [andb].
      destruct (Z.eqb_spec 0 (flagTriggered s)); [congruence|reflexivity].
    + unfold c_not.
      destruct (Z.eqb_spec (powerOn s) 0) as [->|Hn]; [reflexivity|].
      destruct (Z.eqb_spec 0 (powerOn s)); [congruence|reflexivity].
  - now rewrite !Z.eqb_refl.
Qed.

Lemma loop_now i s :
  now (loop_body i s) = if WDT_TIMEDOUT i then u8 (now s + 1) else now s.
Proof.
  unfold loop_body.
  rewrite (proj1 (leds_frame _)), (proj1 (flag_frame _ _)),
    (proj1 (button_frame _ _)).
  apply timer_now.
Qed.

Lemma loop_btnState i s : btnState (loop_body i s) = btnStateNow i.
Proof.
  unfold loop_body.
  destruct (leds_frame (flag_processing (flagStateNow i)
    (button_processing (btnStateNow i) (timer_stuff i s)))) as (_ & -> & _).
  destruct (flag_frame (flagStateNow i)
    (button_processing (btnStateNow i) (timer_stuff i s))) as (_ & -> & _).
  apply button_frame.
Qed.

Lemma loop_btnTime i s :
  btnTime (loop_body i s) =
  if pressed i then now (loop_body i s) else btnTime s.
Proof.
  rewrite loop_now. unfold loop_body.
  destruct (leds_frame (flag_processing (flagStateNow i)
    (button_processing (btnStateNow i) (timer_stuff i s))))
    as (_ & _ & -> & _).
  destruct (flag_frame (flagStateNow i)
    (button_processing (btnStateNow i) (timer_stuff i s)))
    as (_ & _ & -> & _).
  rewrite button_btnTime, timer_now. unfold pressed.
  destruct (timer_frame i s) as (_ & -> & _). reflexivity.
Qed.

Lemma loop_debounceOk i s :
  debounceOk (loop_body i s) =
  if pressed i then (if toggle_event i s then 0 else debounceOk s)
  else if 3 <=? elapsed8 (now (loop_body i s)) (btnTime s) then 1
       else debounceOk s.
Proof.
  rewrite loop_now, toggle_event_accepted. unfold loop_body.
  destruct (leds_frame (flag_processing (flagStateNow i)
    (button_processing (btnStateNow i) (timer_stuff i s))))
    as (_ & _ & _ & _ & _ & _ & _ & -> & _).
  destruct (flag_frame (flagStateNow i)
    (button_processing (btnStateNow i) (timer_stuff i s)))
    as (_ & _ & _ & ->).
  rewrite button_debounceOk, timer_now, accepted_timer. unfold pressed.
  destruct (timer_frame i s) as (_ & -> & _ & _ & _ & _ & -> & _).
  reflexivity.
Qed.

Lemma loop_flagTriggered i s :
  flagTriggered (loop_body i s) =
  if fault_asserted i then 1
  else if toggle_event i s then 0 else flagTriggered s.
Proof.
  rewrite toggle_event_accepted. unfold loop_body.
  destruct (leds_frame (flag_processing (flagStateNow i)
    (button_processing (btnStateNow i) (timer_stuff i s))))
    as (_ & _ & _ & -> & _).
  rewrite flag_flagTriggered, button_flagTriggered, accepted_timer.
  destruct (timer_frame i s) as (_ & _ & -> & _). reflexivity.
Qed.

Lemma loop_powerOn i s :
  powerOn (loop_body i s) =
  if fault_asserted i then 0
  else if toggle_event i s && negb (c_true (flagTriggered s))
       then c_not (powerOn s) else powerOn s.
Proof.
  rewrite toggle_event_accepted. unfold loop_body.
  destruct (leds_frame (flag_processing (flagStateNow i)
    (button_processing (btnStateNow i) (timer_stuff i s))))
    as (_ & _ & _ & _ & _ & _ & -> & _).
  rewrite flag_powerOn, button_powerOn, accepted_timer.
  destruct (timer_frame i s) as (_ & _ & -> & _ & _ & -> & _). reflexivity.
Qed.

Lemma loop_flagTrigTime i s :
  flagTrigTime (loop_body i s) =
  if fault_asserted i && negb (c_true (flagSet s))
  then now (loop_body i s) else flagTrigTime s.
Proof.
  rewrite loop_now. unfold loop_body.
  destruct (leds_frame (flag_processing (flagStateNow i)
    (button_processing (btnStateNow i) (timer_stuff i s))))
    as (_ & _ & _ & _ & -> & _).
  rewrite flag_flagTrigTime.
  destruct (button_frame (btnStateNow i) (timer_stuff i s))
    as (-> & _ & -> & -> & _).
  rewrite timer_now.
  destruct (timer_frame i s) as (_ & _ & _ & -> & -> & _). reflexivity.
Qed.

Lemma loop_flagSet i s :
  flagSet (loop_body i s) =
  let s' := loop_body i s in
  let fs := if fault_asserted i then 1 else flagSet s in
  if c_true (flagTriggered s') && c_true fs
     && (2 <=? elapsed8 (now s') (flagTrigTime s'))
  then 0 else fs.
Proof.
  cbv zeta. rewrite loop_flagTriggered, loop_flagTrigTime, loop_now.
  rewrite toggle_event_accepted. unfold loop_body.
  destruct (leds_frame (flag_processing (flagStateNow i)
    (button_processing (btnStateNow i) (timer_stuff i s))))
    as (_ & _ & _ & _ & _ & -> & _).
  rewrite flag_flagSet. cbv zeta. rewrite flag_flagTrigTime.
  rewrite button_flagTriggered, accepted_timer.
  destruct (button_frame (btnStateNow i) (timer_stuff i s))
    as (-> & _ & -> & -> & _).
  rewrite timer_now.
  destruct (timer_frame i s) as (_ & _ & -> & -> & -> & _).
  unfold fault_asserted.
  destruct (c_true (flagStateNow i)); reflexivity.
Qed.

(** The /FLAG pin after a pass. *)
Lemma loop_pin i s :
  (c_true (flagSet s) = true -> flag_driven_low s = true) ->
  let s' := loop_body i s in
  if c_true (flagSet s') then flag_driven_low s' = true
  else (fault_asserted i || c_true (flagSet s) = true ->
        flag_released s' = true).
Proof.
  intros Hpin. cbv zeta. unfold loop_body.
  set (s2 := button_processing (btnStateNow i) (timer_stuff i s)).
  destruct (leds_outputs (flag_processing (flagStateNow i) s2))
    as (_ & _ & -> & ->).
  destruct (leds_frame (flag_processing (flagStateNow i) s2))
    as (_ & _ & _ & _ & _ & -> & _).
  assert (Hfs : flagSet s2 = flagSet s).
  { subst s2. destruct (button_frame (btnStateNow i) (timer_stuff i s))
      as (_ & _ & _ & -> & _). apply timer_frame. }
  assert (Hlow : flag_driven_low s2 = flag_driven_low s).
  { subst s2. unfold flag_driven_low.
    destruct (button_frame (btnStateNow i) (timer_stuff i s))
      as (_ & _ & _ & _ & -> & ->).
    destruct (timer_frame i s) as (_ & _ & _ & _ & _ & _ & _ & -> & ->).
    reflexivity. }
  pose proof (flag_pin (flagStateNow i) s2) as H. cbv zeta in H.
  rewrite Hfs, Hlow in H. apply H, Hpin.
Qed.

(** The LED and the enable output after a pass. *)
Lemma loop_outputs i s :
  let s' := loop_body i s in
  led_bits s' = (if c_true (powerOn s') then LED_GREEN
                 else if c_true (flagTriggered s') then LED_RED else LED_OFF) /\
  power_output_active s' = c_true (powerOn s').
Proof.
  cbv zeta. unfold loop_body.
  set (s3 := flag_processing _ _).
  destruct (leds_frame s3) as (_ & _ & _ & -> & _ & _ & -> & _).
  destruct (leds_outputs s3) as (H1 & H2 & _). split; assumption.
Qed.

(** *** Runs *)

Lemma run_app s a b : run s (a ++ b) = run (run s a) b.
Proof. revert s. induction a as [|i a IH]; intros s; simpl; auto. Qed.

Lemma count_toggles_app s a b :
  count_toggles s (a ++ b) =
  (count_toggles s a + count_toggles (run s a) b)%nat.
Proof.
  revert s. induction a as [|i a IH]; intros s; simpl; [reflexivity|].
  rewrite IH. lia.
Qed.

Lemma not_both_step i s : not_both s -> not_both (loop_body i s).
Proof.
  unfold not_both. intros H.
  rewrite loop_powerOn, loop_flagTriggered.
  destruct (fault_asserted i); [reflexivity|].
  destruct (toggle_event i s); cbn [andb].
  - apply andb_false_r.
  - exact H.
Qed.

Lemma not_both_run ins : forall s, not_both s -> not_both (run s ins).
Proof.
  induction ins as [|i ins IH]; intros s H; simpl; [exact H|].
  apply IH, not_both_step, H.
Qed.

(** ** The fault cutoff *)

Lemma fault_pass i s :
  fault_asserted i = true ->
  flagTriggered (loop_body i s) = 1 /\ powerOn (loop_body i s) = 0 /\
  power_output_active (loop_body i s) = false /\
  led_bits (loop_body i s) = LED_RED.
Proof.
  intros Hf. destruct (loop_outputs i s) as [Hled Hpow].
  rewrite Hled, Hpow, loop_flagTriggered, loop_powerOn, Hf.
  repeat split.
Qed.

(** C1: in every pass of the loop in which the fault input is sampled
    asserted, at the end of that pass [flagTriggered] is set, [powerOn] is
    clear, the enable output is inactive and the LED pins show red, whatever
    the state before the pass and whatever the button sample of the pass. *)
Theorem fault_cuts_power_same_pass (i : input) (s : state) :
  fault_asserted i = true ->
  let s' := loop_body i s in
  flagTriggered s' = 1 /\ powerOn s' = 0 /\
  power_output_active s' = false /\ led_bits s' = LED_RED.
Proof.
  intros Hf. cbv zeta. exact (fault_pass i s Hf).
Qed.

(** The cutoff with power on and an accepted press in the same pass. *)
Lemma fault_cuts_power_same_pass_witness :
  let s := set_powerOn 1 init_state in
  let i := sample true true true in
  (fault_asserted i = true /\ toggle_event i s = true /\ powerOn s = 1) /\
  flagTriggered (loop_body i s) = 1 /\ powerOn (loop_body i s) = 0 /\
  power_output_active (loop_body i s) = false /\
  led_bits (loop_body i s) = LED_RED.
Proof.
  split; [repeat split|].
  apply (fault_cuts_power_same_pass (sample true true true)
           (set_powerOn 1 init_state)).
  reflexivity.
Defined.

(** ** The output mapping *)

(** C7: at the end of every pass the LED pins and the enable output are
    determined by [powerOn] and [flagTriggered] alone: green with the output
    active when [powerOn] is set; otherwise the output is inactive and the
    LED is red when [flagTriggered] is set and off when it is not.  The LED
    pins hold exactly one of the three values, and the value does not depend
    on what [PORTB] held before the pass. *)
Theorem outputs_follow_state (i : input) (s : state) :
  let s' := loop_body i s in
  led_bits s' = (if c_true (powerOn s') then LED_GREEN
                 else if c_true (flagTriggered s') then LED_RED
                      else LED_OFF) /\
  power_output_active s' = c_true (powerOn s') /\
  (led_bits s' = LED_OFF \/ led_bits s' = LED_RED \/ led_bits s' = LED_GREEN) /\
  (LED_OFF <> LED_RED /\ LED_OFF <> LED_GREEN /\ LED_RED <> LED_GREEN) /\
  (forall portb,
      led_bits (loop_body i (set_PORTB portb s)) = led_bits s' /\
      power_output_active (loop_body i (set_PORTB portb s)) =
      power_output_active s').
Proof.
  cbv zeta. destruct (loop_outputs i s) as [Hled Hpow].
  split; [exact Hled|]. split; [exact Hpow|]. split; [|split].
  - rewrite Hled.
    destruct (c_true (powerOn (loop_body i s))),
      (c_true (flagTriggered (loop_body i s))); auto.
  - repeat split; discriminate.
  - intros portb.
    destruct (loop_outputs i (set_PORTB portb s)) as [Hled' Hpow'].
    rewrite Hled', Hpow', Hled, Hpow.
    rewrite !loop_powerOn, !loop_flagTriggered, !toggle_event_accepted.
    split; reflexivity.
Qed.

(** ** Power and latched fault exclude each other *)

(** C9: in every state reached from the initial state, both where the
    outputs are driven and at the end of the pass, [powerOn] and
    [flagTriggered] are not both set; so the LED is never green while the
    fault is latched. *)
Theorem power_and_fault_exclusive (ins : list input) (i : input) :
  let s := run init_state ins in
  let s3 := flag_processing (flagStateNow i)
              (button_processing (btnStateNow i) (timer_stuff i s)) in
  c_true (powerOn s) && c_true (flagTriggered s) = false /\
  c_true (powerOn s3) && c_true (flagTriggered s3) = false /\
  (c_true (flagTriggered (loop_body i s)) = true ->
   led_bits (loop_body i s) = LED_RED).
Proof.
  cbv zeta.
  assert (H : not_both (run init_state ins))
    by (apply not_both_run; reflexivity).
  assert (H' : not_both (loop_body i (run init_state ins)))
    by (apply not_both_step, H).
  split; [exact H|]. split.
  - unfold not_both, loop_body in H'.
    set (s3 := flag_processing _ _) in *.
    destruct (leds_frame s3) as (_ & _ & _ & Hf & _ & _ & Hp & _).
    rewrite Hf, Hp in H'. exact H'.
  - intros Hft. destruct (loop_outputs i (run init_state ins)) as [-> _].
    unfold not_both in H'. rewrite Hft, andb_true_r in H'.
    rewrite H', Hft. reflexivity.
Qed.

(** ** Acknowledging a fault *)

(** [powerOn] goes from clear to set only in a pass with a toggle event that
    found [flagTriggered] clear. *)
Lemma power_on_step i s :
  powerOn s = 0 -> c_true (powerOn (loop_body i s)) = true ->
  toggle_event i s = true /\ c_true (flagTriggered s) = false.
Proof.
  intros H0. rewrite loop_powerOn, H0.
  destruct (fault_asserted i); [discriminate|].
  destruct (toggle_event i s), (c_true (flagTriggered s));
    cbn [andb negb]; try discriminate. auto.
Qed.

Lemma power_on_needs_toggle ins : forall s,
  powerOn s = 0 -> c_true (powerOn (run s ins)) = true ->
  exists pre j post,
    ins = pre ++ j :: post /\
    toggle_event j (run s pre) = true /\
    c_true (flagTriggered (run s pre)) = false.
Proof.
  induction ins as [|i ins IH]; intros s H0 H1; simpl in H1.
  - rewrite H0 in H1. discriminate.
  - destruct (c_true (powerOn (loop_body i s))) eqn:E.
    + exists [], i, ins. simpl. destruct (power_on_step i s H0 E). auto.
    + apply c_true_false_iff in E.
      destruct (IH _ E H1) as (pre & j & post & -> & Ht & Hf).
      exists (i :: pre), j, post. simpl. auto.
Qed.

(** A latched fault is cleared only by a toggle event. *)
Lemma fault_cleared_by_toggle ins : forall s,
  c_true (flagTriggered s) = true ->
  c_true (flagTriggered (run s ins)) = false ->
  (1 <= count_toggles s ins)%nat.
Proof.
  induction ins as [|i ins IH]; intros s H1 H0; simpl in *.
  - congruence.
  - destruct (toggle_event i s) eqn:Et; [lia|].
    apply (IH (loop_body i s)) in H0; [lia|].
    rewrite loop_flagTriggered, Et.
    destruct (fault_asserted i); [reflexivity|exact H1].
Qed.

(** C2: with [flagTriggered] set, an accepted press edge clears
    [flagTriggered] and leaves [powerOn] as it was, in the button code and,
    when the fault input is not sampled asserted in that pass, at the end of
    the pass.  From such a state with power off, a run that ends with
    [powerOn] set contains a toggle event taken while [flagTriggered] was
    already clear, after an earlier toggle event: at least two in all. *)
Theorem reenable_needs_two_presses (s : state) :
  c_true (flagTriggered s) = true ->
  (forall b, press_accepted b s = true ->
     flagTriggered (button_processing b s) = 0 /\
     powerOn (button_processing b s) = powerOn s) /\
  (forall i, toggle_event i s = true -> fault_asserted i = false ->
     flagTriggered (loop_body i s) = 0 /\
     powerOn (loop_body i s) = powerOn s) /\
  (forall ins, powerOn s = 0 -> c_true (powerOn (run s ins)) = true ->
     (exists pre j post,
        ins = pre ++ j :: post /\
        toggle_event j (run s pre) = true /\
        c_true (flagTriggered (run s pre)) = false /\
        (1 <= count_toggles s pre)%nat) /\
     (2 <= count_toggles s ins)%nat).
Proof.
  intros Hft. split; [|split].
  - intros b Hb. rewrite button_flagTriggered, button_powerOn, Hb, Hft.
    split; reflexivity.
  - intros i Ht Hf. rewrite loop_flagTriggered, loop_powerOn, Hf, Ht, Hft.
    split; reflexivity.
  - intros ins H0 H1.
    destruct (power_on_needs_toggle ins s H0 H1)
      as (pre & j & post & -> & Ht & Hf).
    pose proof (fault_cleared_by_toggle pre s Hft Hf) as Hpre.
    split.
    + exists pre, j, post. auto.
    + rewrite count_toggles_app. simpl. rewrite Ht. lia.
Qed.

(** After a fault at power-on, a first press acknowledges and a second one,
    once the debounce window has passed, switches the power on. *)
Lemma reenable_needs_two_presses_witness :
  let s := loop_body (sample false false true) init_state in
  let ack := sample true true false in
  let idle := sample true false false in
  c_true (flagTriggered s) = true /\
  (flagTriggered (loop_body ack s) = 0 /\ powerOn (loop_body ack s) = powerOn s) /\
  (2 <= count_toggles s [ack; idle; idle; idle; ack])%nat.
Proof.
  cbv zeta. split; [reflexivity|].
  destruct (reenable_needs_two_presses
              (loop_body (sample false false true) init_state) eq_refl)
    as (_ & Hpass & Hrun).
  split.
  - apply Hpass; reflexivity.
  - apply Hrun; reflexivity.
Defined.

(** ** The pulse on the /FLAG pin *)

Lemma elapsed8_succ n t : elapsed8 (u8 (n + 1)) t = u8 (elapsed8 n t + 1).
Proof.
  unfold elapsed8, u8.
  rewrite Zminus_mod_idemp_l, Zplus_mod_idemp_l. f_equal. lia.
Qed.

Lemma elapsed8_range n t : 0 <= elapsed8 n t < 256.
Proof. unfold elapsed8, u8. apply Z.mod_pos_bound. lia. Qed.

(** One pass with the pulse active. *)
Lemma pulse_step i s :
  c_true (flagSet s) = true -> flag_driven_low s = true ->
  let s' := loop_body i s in
  let e := elapsed8 (now s') (flagTrigTime s) in
  flagTrigTime s' = flagTrigTime s /\
  (e < 2 -> c_true (flagSet s') = true /\ flag_driven_low s' = true) /\
  (2 <= e -> c_true (flagTriggered s') = true ->
   flagSet s' = 0 /\ flag_released s' = true) /\
  (c_true (flagTriggered s') = false ->
   c_true (flagSet s') = true /\ flag_driven_low s' = true).
Proof.
  intros Hset Hlow. cbv zeta.
  assert (Ht : flagTrigTime (loop_body i s) = flagTrigTime s).
  { rewrite loop_flagTrigTime, Hset. cbn [negb]. now rewrite andb_false_r. }
  pose proof (loop_pin i s (fun _ => Hlow)) as Hpin. cbv zeta in Hpin.
  pose proof (loop_flagSet i s) as Hfs. cbv zeta in Hfs. rewrite Ht in Hfs.
  assert (Hc : c_true (if fault_asserted i then 1 else flagSet s) = true)
    by (destruct (fault_asserted i); [reflexivity|exact Hset]).
  rewrite Hc, andb_true_r in Hfs.
  split; [exact Ht|].
  destruct (c_true (flagTriggered (loop_body i s))) eqn:Eft;
    destruct (Z.leb_spec 2 (elapsed8 (now (loop_body i s)) (flagTrigTime s)))
      as [He|He]; cbn [andb] in Hfs; rewrite Hfs in *.
  - change (c_true 0) with false in Hpin. rewrite Hset, orb_true_r in Hpin.
    repeat split; try lia; try discriminate; auto.
  - rewrite Hc in Hpin. repeat split; try lia; try discriminate; auto.
  - rewrite Hc in Hpin. repeat split; try lia; try discriminate; auto.
  - rewrite Hc in Hpin. repeat split; try lia; try discriminate; auto.
Qed.

(** The latch survives every pass without a toggle event. *)
Lemma latch_survives ins : forall s,
  c_true (flagTriggered s) = true -> count_toggles s ins = O ->
  c_true (flagTriggered (run s ins)) = true.
Proof.
  induction ins as [|i ins IH]; intros s Hft Hc; simpl in *; [exact Hft|].
  destruct (toggle_event i s) eqn:Et; [discriminate|].
  apply IH; [|exact Hc].
  rewrite loop_flagTriggered, Et.
  destruct (fault_asserted i); [reflexivity|exact Hft].
Qed.

(** In every state reached from the initial one the pin is driven low
    while [flagSet] is set. *)
Lemma pin_low_run ins : forall s,
  (c_true (flagSet s) = true -> flag_driven_low s = true) ->
  c_true (flagSet (run s ins)) = true -> flag_driven_low (run s ins) = true.
Proof.
  induction ins as [|i ins IH]; intros s H; simpl; [exact H|].
  apply IH. intros Hset. pose proof (loop_pin i s H) as Hpin.
  cbv zeta in Hpin. rewrite Hset in Hpin. exact Hpin.
Qed.

(** With the latch cleared and no fault sampled, the pulse never ends. *)
Lemma pulse_stuck ins : forall s,
  c_true (flagSet s) = true -> flag_driven_low s = true ->
  c_true (flagTriggered s) = false ->
  Forall (fun i => fault_asserted i = false) ins ->
  c_true (flagSet (run s ins)) = true /\
  flag_driven_low (run s ins) = true /\
  c_true (flagTriggered (run s ins)) = false /\
  flagTrigTime (run s ins) = flagTrigTime s.
Proof.
  induction ins as [|i ins IH]; intros s Hset Hlow Hft Hall; simpl; [auto|].
  inversion Hall as [|? ? Hi Hrest]; subst.
  assert (Hft' : c_true (flagTriggered (loop_body i s)) = false).
  { rewrite loop_flagTriggered, Hi.
    destruct (toggle_event i s); [reflexivity|exact Hft]. }
  destruct (pulse_step i s Hset Hlow) as (Ht & _ & _ & Hstay).
  destruct (Hstay Hft') as [Hset' Hlow'].
  destruct (IH _ Hset' Hlow' Hft' Hrest) as (A & B & C & D).
  rewrite D, Ht. auto.
Qed.

(** [flagSet] is cleared only under the full condition of line 153. *)
Lemma release_step i s :
  c_true (flagSet s) = true ->
  c_true (flagSet (loop_body i s)) = false ->
  c_true (flagTriggered (loop_body i s)) = true /\
  2 <= elapsed8 (now (loop_body i s)) (flagTrigTime s).
Proof.
  intros Hset Hclr.
  assert (Ht : flagTrigTime (loop_body i s) = flagTrigTime s).
  { rewrite loop_flagTrigTime, Hset. cbn [negb]. now rewrite andb_false_r. }
  pose proof (loop_flagSet i s) as Hfs. cbv zeta in Hfs. rewrite Ht in Hfs.
  assert (Hc : c_true (if fault_asserted i then 1 else flagSet s) = true)
    by (destruct (fault_asserted i); [reflexivity|exact Hset]).
  rewrite Hc, andb_true_r in Hfs.
  destruct (c_true (flagTriggered (loop_body i s)));
    destruct (Z.leb_spec 2 (elapsed8 (now (loop_body i s)) (flagTrigTime s)));
    cbn [andb] in Hfs; rewrite Hfs in Hclr; try congruence.
  split; [reflexivity|assumption].
Qed.

(** ** A fault that stays asserted *)

Lemma elapsed8_u8 a b : elapsed8 (u8 a) (u8 b) = u8 (a - b).
Proof. unfold elapsed8, u8. now rewrite <- Zminus_mod. Qed.

Lemma u8_u8 a : u8 (u8 a) = u8 a.
Proof. unfold u8. apply Z.mod_mod. lia. Qed.

Lemma u8_succ a : u8 (u8 a + 1) = u8 (a + 1).
Proof. unfold u8. apply Zplus_mod_idemp_l. Qed.

(** A pass that samples the fault with no pulse active starts one. *)
Lemma pulse_start i s :
  c_true (flagSet s) = false -> fault_asserted i = true ->
  flagSet (loop_body i s) = 1 /\
  flagTrigTime (loop_body i s) = now (loop_body i s) /\
  flag_driven_low (loop_body i s) = true.
Proof.
  intros Hclr Hf.
  assert (Ht : flagTrigTime (loop_body i s) = now (loop_body i s)).
  { rewrite loop_flagTrigTime, Hf, Hclr. reflexivity. }
  assert (Hfs : flagSet (loop_body i s) = 1).
  { pose proof (loop_flagSet i s) as H. cbv zeta in H.
    rewrite Ht, Hf in H. unfold elapsed8 in H.
    rewrite Z.sub_diag in H. change (2 <=? u8 0) with false in H.
    rewrite andb_false_r in H. exact H. }
  pose proof (loop_pin i s) as Hpin. cbv zeta in Hpin.
  rewrite Hfs in Hpin. change (c_true 1) with true in Hpin. cbv iota in Hpin.
  repeat split; try assumption. apply Hpin. intros H. congruence.
Qed.

(** The pass that ends a pulse starts none, and the next pass that samples
    the fault does. *)
Lemma pulse_end_then_start i j s :
  c_true (flagSet s) = true -> flag_driven_low s = true ->
  fault_asserted i = true -> fault_asserted j = true ->
  2 <= elapsed8 (now (loop_body i s)) (flagTrigTime s) ->
  (flagSet (loop_body i s) = 0 /\ flag_released (loop_body i s) = true /\
   flagTrigTime (loop_body i s) = flagTrigTime s) /\
  (flagSet (loop_body j (loop_body i s)) = 1 /\
   flag_driven_low (loop_body j (loop_body i s)) = true /\
   flagTrigTime (loop_body j (loop_body i s)) =
   now (loop_body j (loop_body i s))).
Proof.
  intros Hset Hlow Hi Hj He.
  destruct (pulse_step i s Hset Hlow) as (Ht & _ & Hout & _).
  destruct (fault_pass i s Hi) as (Hft & _).
  destruct (Hout He) as [Hclr Hrel]; [rewrite Hft; reflexivity|].
  split; [auto|].
  destruct (pulse_start j (loop_body i s)) as (A & B & C);
    [rewrite Hclr; reflexivity|exact Hj|auto].
Qed.

(** The state after the pass that starts a pulse and [n] further passes, one
    per tick, all sampling the fault asserted. *)
Lemma repulse_inv rest : forall s i0,
  0 <= now s < 256 ->
  c_true (flagSet s) = false -> fault_asserted i0 = true ->
  Forall (fun i => WDT_TIMEDOUT i = true /\ fault_asserted i = true) rest ->
  let t := now (loop_body i0 s) in
  let n := Z.of_nat (length rest) in
  let s' := run s (i0 :: rest) in
  now s' = u8 (t + n) /\
  flagTrigTime s' = u8 (t + 3 * (n / 3)) /\
  flagSet s' = (if n mod 3 =? 2 then 0 else 1) /\
  (if n mod 3 =? 2 then flag_released s' = true
   else flag_driven_low s' = true).
Proof.
  induction rest as [|j pre IH] using rev_ind; intros s i0 Hnow Hclr Hf0 Hall;
    cbv zeta.
  - cbn [run length Z.of_nat].
    assert (Hr : 0 <= now (loop_body i0 s) < 256).
    { rewrite loop_now. destruct (WDT_TIMEDOUT i0); [|exact Hnow].
      apply Z.mod_pos_bound. lia. }
    destruct (pulse_start i0 s Hclr Hf0) as (Hfs & Ht & Hpin).
    rewrite Ht, Hfs, Z.add_0_r. change (0 / 3) with 0. rewrite Z.add_0_r.
    unfold u8. rewrite Z.mod_small by exact Hr.
    change (0 mod 3 =? 2) with false. cbv iota.
    repeat split. exact Hpin.
  - apply Forall_app in Hall. destruct Hall as [Hpre Hj].
    inversion Hj as [|? ? [Hjt Hjf] _]; subst.
    specialize (IH s i0 Hnow Hclr Hf0 Hpre). cbv zeta in IH.
    destruct IH as (Hn & Ht & Hfs & Hpin).
    change (i0 :: pre ++ [j]) with ((i0 :: pre) ++ [j]).
    rewrite run_app.
    set (s1 := run s (i0 :: pre)) in *.
    change (run s1 [j]) with (loop_body j s1).
    set (t := now (loop_body i0 s)) in *.
    rewrite length_app. cbn [length]. rewrite Nat2Z.inj_add.
    change (Z.of_nat 1) with 1.
    set (n := Z.of_nat (length pre)) in *.
    assert (Hn0 : 0 <= n) by (subst n; lia).
    assert (Hnow' : now (loop_body j s1) = u8 (t + n + 1)).
    { rewrite loop_now, Hjt, Hn. apply u8_succ. }
    destruct (fault_pass j s1 Hjf) as (Hft' & _).
    pose proof (loop_flagTrigTime j s1) as Ht'.
    pose proof (loop_flagSet j s1) as Hfs'. cbv zeta in Hfs'.
    pose proof (loop_pin j s1) as Hpin'. cbv zeta in Hpin'.
    rewrite Hjf, Hft' in *. change (c_true 1) with true in *.
    cbn [andb] in Hfs'.
    rewrite Z.add_assoc.
    revert Hfs Hpin.
    destruct (Z.eqb_spec (n mod 3) 2) as [E|E]; intros Hfs Hpin.
    + (* the pin was released: a new pulse starts in this pass *)
      rewrite Hfs in Ht'. change (c_true 0) with false in Ht'.
      cbn [negb andb] in Ht'. rewrite Ht' in *.
      unfold elapsed8 in Hfs'. rewrite Z.sub_diag in Hfs'.
      change (2 <=? u8 0) with false in Hfs'.
      rewrite Hfs' in *. change (c_true 1) with true in Hpin'.
      cbv iota in Hpin'. rewrite Hfs in Hpin'.
      replace (3 * ((n + 1) / 3)) with (n + 1)
        by (Z.div_mod_to_equations; lia).
      replace ((n + 1) mod 3 =? 2) with false
        by (symmetry; apply Z.eqb_neq; Z.div_mod_to_equations; lia).
      rewrite Z.add_assoc. repeat split; try assumption.
      apply Hpin'. intros H. discriminate.
    + (* the pulse is running *)
      rewrite Hfs in Ht', Hpin'. change (c_true 1) with true in *.
      cbn [negb andb] in Ht'. rewrite Ht' in *.
      replace ((n + 1) / 3) with (n / 3) by (Z.div_mod_to_equations; lia).
      rewrite Hnow', Ht, elapsed8_u8 in Hfs'.
      replace (t + n + 1 - (t + 3 * (n / 3))) with (n mod 3 + 1) in Hfs'
        by (Z.div_mod_to_equations; lia).
      assert (Hm : n mod 3 = 0 \/ n mod 3 = 1)
        by (Z.div_mod_to_equations; lia).
      split; [exact Hnow'|]. split; [exact Ht|].
      specialize (Hpin' (fun _ => Hpin)).
      destruct Hm as [Hm|Hm]; rewrite Hm in Hfs';
        change (2 <=? u8 (0 + 1)) with false in Hfs';
        change (2 <=? u8 (1 + 1)) with true in Hfs';
        rewrite Hfs' in *.
      * replace ((n + 1) mod 3 =? 2) with false
          by (symmetry; apply Z.eqb_neq; Z.div_mod_to_equations; lia).
        split; [reflexivity|exact Hpin'].
      * replace ((n + 1) mod 3 =? 2) with true
          by (symmetry; apply Z.eqb_eq; Z.div_mod_to_equations; lia).
        split; [reflexivity|]. apply Hpin'. reflexivity.
Qed.

(** C4, counterexample: the fault is asserted from tick 0 on, one pass per
    tick.  The pulse started at tick 0 ends in the pass at tick 2, and no
    pulse starts in that pass: the pin is released and [flagTrigTime] is
    still 0.  The next pulse starts at tick 3, and the one after at tick 6:
    the period is three ticks, not two. *)
Lemma no_new_pulse_in_the_tick_the_pulse_ends :
  let first := sample false false true in
  let f := sample true false true in
  let at_tick k := run init_state (first :: repeat f k) in
  (now (at_tick 0%nat) = 0 /\ flagSet (at_tick 0%nat) = 1 /\
   flagTrigTime (at_tick 0%nat) = 0) /\
  (now (at_tick 2%nat) = 2 /\ flagSet (at_tick 2%nat) = 0 /\
   flagTrigTime (at_tick 2%nat) = 0 /\ flag_released (at_tick 2%nat) = true /\
   flag_driven_low (at_tick 2%nat) = false) /\
  (now (at_tick 3%nat) = 3 /\ flagSet (at_tick 3%nat) = 1 /\
   flagTrigTime (at_tick 3%nat) = 3) /\
  (now (at_tick 4%nat) = 4 /\ flagSet (at_tick 4%nat) = 1 /\
   flagTrigTime (at_tick 4%nat) = 3) /\
  (now (at_tick 6%nat) = 6 /\ flagSet (at_tick 6%nat) = 1 /\
   flagTrigTime (at_tick 6%nat) = 6).
Proof. vm_compute. repeat split. Qed.

(** C4, as amended: while the fault input stays asserted, the pass in which
    a pulse ends starts no new pulse; the next pass does.  With one pass of
    the loop per tick, the pulse that started at tick [t] ends in the pass
    at tick [t + 2] and the next pulse starts at tick [t + 3]: pulses repeat
    with a period of three ticks, the pin being driven low at the end of two
    passes out of three, and the LED is red with the power off after every
    pass. *)
Theorem repulse_every_three_ticks (s : state) (i0 : input) (rest : list input) :
  0 <= now s < 256 ->
  c_true (flagSet s) = false -> fault_asserted i0 = true ->
  Forall (fun i => WDT_TIMEDOUT i = true /\ fault_asserted i = true) rest ->
  let t := now (loop_body i0 s) in
  let n := Z.of_nat (length rest) in
  let s' := run s (i0 :: rest) in
  now s' = u8 (t + n) /\
  flagTrigTime s' = u8 (t + 3 * (n / 3)) /\
  flagSet s' = (if n mod 3 =? 2 then 0 else 1) /\
  (if n mod 3 =? 2 then flag_released s' = true
   else flag_driven_low s' = true) /\
  (flagTriggered s' = 1 /\ powerOn s' = 0 /\
   power_output_active s' = false /\ led_bits s' = LED_RED) /\
  (forall i j,
     c_true (flagSet s') = true ->
     fault_asserted i = true -> fault_asserted j = true ->
     2 <= elapsed8 (now (loop_body i s')) (flagTrigTime s') ->
     (flagSet (loop_body i s') = 0 /\ flag_released (loop_body i s') = true /\
      flagTrigTime (loop_body i s') = flagTrigTime s') /\
     (flagSet (loop_body j (loop_body i s')) = 1 /\
      flag_driven_low (loop_body j (loop_body i s')) = true /\
      flagTrigTime (loop_body j (loop_body i s')) =
      now (loop_body j (loop_body i s')))).
Proof.
  intros Hnow Hclr Hf0 Hall. cbv zeta.
  destruct (repulse_inv rest s i0 Hnow Hclr Hf0 Hall) as (A & B & C & D).
  repeat (split; [assumption|]).
  split.
  - destruct rest as [|j pre] using rev_ind.
    + apply fault_pass, Hf0.
    + apply Forall_app in Hall. destruct Hall as [_ Hj].
      inversion Hj as [|? ? [_ Hjf] _]; subst.
      change (i0 :: pre ++ [j]) with ((i0 :: pre) ++ [j]).
      rewrite run_app. apply fault_pass, Hjf.
  - intros i j Hset Hi Hj He.
    apply pulse_end_then_start; try assumption.
    rewrite C in Hset.
    destruct (Z.of_nat (length rest) mod 3 =? 2); [discriminate|exact D].
Qed.

(** Scenario B continued to tick 7: pulses start at ticks 0, 3 and 6. *)
Lemma repulse_every_three_ticks_witness :
  let first := sample false false true in
  let f := sample true false true in
  let s' := run (set_powerOn 1 init_state) (first :: repeat f 7) in
  (0 <= now (set_powerOn 1 init_state) < 256 /\
   c_true (flagSet (set_powerOn 1 init_state)) = false /\
   fault_asserted first = true /\
   Forall (fun i => WDT_TIMEDOUT i = true /\ fault_asserted i = true)
     (repeat f 7)) /\
  now s' = 7 /\ flagTrigTime s' = 6 /\ flagSet s' = 1 /\
  flag_driven_low s' = true /\ led_bits s' = LED_RED.
Proof.
  cbv zeta.
  assert (H : Forall (fun i => WDT_TIMEDOUT i = true /\ fault_asserted i = true)
                (repeat (sample true false true) 7))
    by (repeat constructor).
  assert (Hn : 0 <= now (set_powerOn 1 init_state) < 256)
    by (split; [discriminate|reflexivity]).
  split; [repeat split; try exact H; discriminate|].
  destruct (repulse_every_three_ticks (set_powerOn 1 init_state)
              (sample false false true) (repeat (sample true false true) 7)
              Hn eq_refl eq_refl H)
    as (A & B & C & D & (_ & _ & _ & E) & _).
  repeat split; assumption.
Defined.

(** ** The pulse on the shared pin *)

Lemma pin_coupled_app s a b :
  pin_coupled s (a ++ b) = pin_coupled s a && pin_coupled (run s a) b.
Proof.
  revert s. induction a as [|i a IH]; intros s; cbn [app pin_coupled run].
  - reflexivity.
  - rewrite IH. now rewrite andb_assoc.
Qed.

Lemma pulse_bounded_step i s :
  pulse_bounded s ->
  (flag_driven_low s = true -> fault_asserted i = true) ->
  pulse_bounded (loop_body i s).
Proof.
  unfold pulse_bounded. intros P Hc Hset'.
  destruct (c_true (flagSet s)) eqn:Es.
  - destruct (P eq_refl) as (Hlow & He & Hft). specialize (Hc Hlow).
    destruct (pulse_step i s Es Hlow) as (Ht & Hin & Hout & _).
    destruct (fault_pass i s Hc) as (Hft' & _).
    destruct (Z.lt_ge_cases
                (elapsed8 (now (loop_body i s)) (flagTrigTime s)) 2)
      as [Hl|Hg].
    + destruct (Hin Hl) as [_ Hlow']. rewrite Ht, Hft'. auto.
    + destruct (Hout Hg) as [H0 _]; [rewrite Hft'; reflexivity|].
      rewrite H0 in Hset'. discriminate.
  - assert (Hf : fault_asserted i = true).
    { destruct (fault_asserted i) eqn:Ef; [reflexivity|].
      pose proof (loop_flagSet i s) as H. cbv zeta in H. rewrite Ef in H.
      rewrite Es, andb_false_r in H. cbn [andb] in H.
      rewrite H, Es in Hset'. discriminate. }
    destruct (pulse_start i s Es Hf) as (_ & Ht & Hlow').
    destruct (fault_pass i s Hf) as (Hft' & _).
    rewrite Ht, Hft'. unfold elapsed8. rewrite Z.sub_diag.
    split; [exact Hlow'|]. split; [reflexivity|reflexivity].
Qed.

Lemma pulse_bounded_run ins : forall s,
  pulse_bounded s -> pin_coupled s ins = true -> pulse_bounded (run s ins).
Proof.
  induction ins as [|i ins IH]; intros s P Hc; cbn [run pin_coupled] in *;
    [exact P|].
  apply andb_true_iff in Hc. destruct Hc as [Hi Hrest].
  apply IH; [|exact Hrest].
  apply pulse_bounded_step; [exact P|].
  intros Hlow. rewrite Hlow in Hi. exact Hi.
Qed.

(** What a run that agrees with the pin gives for its last pass. *)
Lemma coupled_last_pass ins j :
  pin_coupled init_state (ins ++ [j]) = true ->
  pulse_bounded (run init_state ins) /\
  (flag_driven_low (run init_state ins) = true -> fault_asserted j = true).
Proof.
  rewrite pin_coupled_app. intros H.
  apply andb_true_iff in H. destruct H as [Hins Hj].
  split.
  - apply pulse_bounded_run; [|exact Hins]. intros H. discriminate.
  - cbn [pin_coupled] in Hj. rewrite andb_true_r in Hj.
    intros Hlow. rewrite Hlow in Hj. exact Hj.
Qed.

(** C3: on every run from power-on whose samples agree with the pin, a
    pulse that started at tick [t] keeps the pin driven low through every
    pass with [(now - t) mod 256 < 2] and is released, with [flagSet]
    cleared, in the first pass with two ticks elapsed, which finds exactly
    two.  While the pulse is active no sample, whatever it reads on the
    fault input and the button, ends it before that.  [flagTriggered] is
    set throughout and stays set over every later run without an accepted
    press. *)
Theorem ack_pulse_lasts_two_ticks (ins0 : list input) (j : input) :
  let s := run init_state ins0 in
  pin_coupled init_state (ins0 ++ [j]) = true ->
  c_true (flagSet s) = true ->
  let t := flagTrigTime s in
  let s2 := loop_body j s in
  (flag_driven_low s = true /\ elapsed8 (now s) t < 2 /\
   c_true (flagTriggered s) = true) /\
  (elapsed8 (now s2) t < 2 ->
   c_true (flagSet s2) = true /\ flag_driven_low s2 = true /\
   flagTrigTime s2 = t) /\
  (2 <= elapsed8 (now s2) t ->
   elapsed8 (now s2) t = 2 /\ flagSet s2 = 0 /\ flag_released s2 = true) /\
  c_true (flagTriggered s2) = true /\
  (forall j', elapsed8 (now (loop_body j' s)) t < 2 ->
     c_true (flagSet (loop_body j' s)) = true /\
     flag_driven_low (loop_body j' s) = true /\
     flagTrigTime (loop_body j' s) = t) /\
  (forall rest, count_toggles s rest = O ->
     c_true (flagTriggered (run s rest)) = true).
Proof.
  cbv zeta. set (s := run init_state ins0). intros Hc Hset.
  destruct (coupled_last_pass ins0 j Hc) as [P Hj]. fold s in P, Hj.
  destruct (P Hset) as (Hlow & He & Hft). specialize (Hj Hlow).
  destruct (pulse_step j s Hset Hlow) as (Ht & Hin & Hout & _).
  destruct (fault_pass j s Hj) as (Hft' & _).
  split; [auto|]. split; [|split; [|split; [|split]]].
  - intros Hl. destruct (Hin Hl). auto.
  - intros Hg. destruct (Hout Hg) as [H0 Hrel]; [rewrite Hft'; reflexivity|].
    split; [|auto].
    assert (elapsed8 (now (loop_body j s)) (flagTrigTime s) <= 2); [|lia].
    rewrite loop_now. destruct (WDT_TIMEDOUT j); [|lia].
    rewrite elapsed8_succ. unfold u8.
    pose proof (elapsed8_range (now s) (flagTrigTime s)).
    rewrite Z.mod_small; lia.
  - rewrite Hft'. reflexivity.
  - intros j' Hl.
    destruct (pulse_step j' s Hset Hlow) as (Ht' & Hin' & _).
    destruct (Hin' Hl). auto.
  - intros rest Hr. exact (latch_survives rest s Hft Hr).
Qed.

(** Scenario C on the pin: a fault at tick 0; the pin, driven low, reads
    low at ticks 1 and 2 whatever the load switch does; the pulse is still
    driven after tick 1 and released in the pass at tick 2; the latch is
    set three idle passes later. *)
Lemma ack_pulse_lasts_two_ticks_witness :
  let low := sample true false true in
  let idle := sample true false false in
  let s := run init_state [sample false false true; low] in
  (pin_coupled init_state ([sample false false true; low] ++ [low]) = true /\
   c_true (flagSet s) = true) /\
  (flag_driven_low s = true /\ elapsed8 (now s) (flagTrigTime s) < 2) /\
  (flagSet (loop_body low s) = 0 /\ flag_released (loop_body low s) = true) /\
  c_true (flagTriggered (run s [low; idle; idle; idle])) = true.
Proof.
  cbv zeta.
  set (low := sample true false true).
  set (idle := sample true false false).
  set (ins0 := [sample false false true; low]).
  assert (Hc : pin_coupled init_state (ins0 ++ [low]) = true)
    by (vm_compute; reflexivity).
  assert (Hset : c_true (flagSet (run init_state ins0)) = true)
    by (vm_compute; reflexivity).
  assert (Hg : 2 <= elapsed8 (now (loop_body low (run init_state ins0)))
                             (flagTrigTime (run init_state ins0)))
    by (vm_compute; discriminate).
  assert (Hr : count_toggles (run init_state ins0) [low; idle; idle; idle] = O)
    by (vm_compute; reflexivity).
  destruct (ack_pulse_lasts_two_ticks ins0 low Hc Hset)
    as ((A & B & _) & _ & Hout & _ & _ & Hlatch).
  split; [split; assumption|]. split; [split; assumption|].
  split; [apply Hout, Hg|]. apply Hlatch, Hr.
Defined.

(** C10, counterexample: no run the pin can deliver keeps the pulse beyond
    two ticks.  The run [fault_then_ack] is not one of them: its second
    sample reads the fault input high in a pass that starts with the pin
    driven low.  On every run whose samples agree with the pin, a pass that
    starts with a pulse active samples the fault asserted, and a state with
    a pulse active has the fault latched and fewer than two ticks
    elapsed. *)
Lemma no_stuck_pulse_on_the_pin :
  (flag_driven_low (run init_state [sample false false true]) = true /\
   fault_asserted (sample true true false) = false /\
   pin_coupled init_state fault_then_ack = false) /\
  (forall ins j,
     pin_coupled init_state (ins ++ [j]) = true ->
     c_true (flagSet (run init_state ins)) = true ->
     fault_asserted j = true) /\
  (forall ins,
     pin_coupled init_state ins = true ->
     c_true (flagSet (run init_state ins)) = true ->
     c_true (flagTriggered (run init_state ins)) = true /\
     elapsed8 (now (run init_state ins))
              (flagTrigTime (run init_state ins)) < 2).
Proof.
  split; [vm_compute; repeat split|]. split.
  - intros ins j Hc Hset.
    destruct (coupled_last_pass ins j Hc) as [P Hj].
    destruct (P Hset) as (Hlow & _). exact (Hj Hlow).
  - intros ins Hc Hset.
    assert (P : pulse_bounded (run init_state ins)).
    { apply pulse_bounded_run; [|exact Hc]. intros H. discriminate. }
    destruct (P Hset) as (_ & He & Hft). auto.
Qed.

(** C10, as amended: a pass clears [flagSet] and releases the pin only
    with [flagTriggered] set and two ticks elapsed, not on the elapsed
    time alone.  On the runs the pin can deliver this never delays the
    release: a pass that starts with a pulse active reads the pin low, so
    it ends with the fault latched even when it accepts a press, and with
    two ticks elapsed it releases the pin.  The pin would stay driven low
    beyond two ticks, through every further pass without a fault sample,
    only after a sample that reads the fault input high while the pin is
    driven low, as in [fault_then_ack]. *)
Theorem release_test_never_delays_release (ins0 : list input) (j : input) :
  let s := run init_state ins0 in
  pin_coupled init_state (ins0 ++ [j]) = true ->
  c_true (flagSet s) = true ->
  let s2 := loop_body j s in
  (forall i s',
     c_true (flagSet s') = true ->
     c_true (flagSet (loop_body i s')) = false ->
     c_true (flagTriggered (loop_body i s')) = true /\
     2 <= elapsed8 (now (loop_body i s')) (flagTrigTime s')) /\
  (fault_asserted j = true /\ flagTriggered s2 = 1 /\ powerOn s2 = 0) /\
  (2 <= elapsed8 (now s2) (flagTrigTime s) ->
   flagSet s2 = 0 /\ flag_released s2 = true) /\
  (forall rest,
     Forall (fun i => fault_asserted i = false) rest ->
     pin_coupled init_state (fault_then_ack ++ rest) = false /\
     c_true (flagSet (run init_state (fault_then_ack ++ rest))) = true /\
     flag_driven_low (run init_state (fault_then_ack ++ rest)) = true).
Proof.
  cbv zeta. set (s := run init_state ins0). intros Hc Hset.
  destruct (coupled_last_pass ins0 j Hc) as [P Hj]. fold s in P, Hj.
  destruct (P Hset) as (Hlow & _ & _). specialize (Hj Hlow).
  destruct (pulse_step j s Hset Hlow) as (_ & _ & Hout & _).
  destruct (fault_pass j s Hj) as (Hft' & Hpow' & _).
  split; [exact release_step|]. split; [auto|]. split.
  - intros Hg. apply Hout; [exact Hg|]. rewrite Hft'. reflexivity.
  - intros rest Hall. split.
    + rewrite pin_coupled_app.
      change (pin_coupled init_state fault_then_ack) with false.
      reflexivity.
    + rewrite run_app.
      destruct (pulse_stuck rest (run init_state fault_then_ack))
        as (Hs & Hl & _); try reflexivity; try exact Hall.
      split; assumption.
Qed.

(** A press accepted at tick 1, in the middle of the pulse: the pin reads
    low, the fault stays latched, and the pass at tick 2 releases the
    pin. *)
Lemma release_test_never_delays_release_witness :
  let s := run init_state [sample false false true] in
  let press := sample true true true in
  (pin_coupled init_state ([sample false false true] ++ [press]) = true /\
   c_true (flagSet s) = true /\ toggle_event press s = true) /\
  flagTriggered (loop_body press s) = 1 /\
  (let s1 := run init_state [sample false false true; press] in
   flagSet (loop_body (sample true false true) s1) = 0 /\
   flag_released (loop_body (sample true false true) s1) = true).
Proof.
  cbv zeta.
  set (press := sample true true true).
  assert (Hc : pin_coupled init_state ([sample false false true] ++ [press])
               = true) by (vm_compute; reflexivity).
  assert (Hset : c_true (flagSet (run init_state [sample false false true]))
                 = true) by (vm_compute; reflexivity).
  assert (Ht : toggle_event press (run init_state [sample false false true])
               = true) by (vm_compute; reflexivity).
  split; [repeat split; assumption|].
  destruct (release_test_never_delays_release
              [sample false false true] press Hc Hset)
    as (_ & (_ & A & _) & _ & _).
  split; [exact A|].
  set (low := sample true false true).
  assert (Hc2 : pin_coupled init_state
                  ([sample false false true; press] ++ [low]) = true)
    by (vm_compute; reflexivity).
  assert (Hset2 : c_true (flagSet
                    (run init_state [sample false false true; press]))
                  = true) by (vm_compute; reflexivity).
  destruct (release_test_never_delays_release
              [sample false false true; press] low Hc2 Hset2)
    as (_ & _ & Hout & _).
  apply Hout. vm_compute. discriminate.
Defined.

(** ** Debouncing *)

Lemma toggle_event_iff i s :
  toggle_event i s =
  pressed i && negb (c_true (btnState s)) && c_true (debounceOk s).
Proof.
  rewrite toggle_event_accepted. unfold press_accepted, pressed.
  now rewrite c_true_c_not.
Qed.

Lemma ticks_nonneg ins : 0 <= ticks ins.
Proof.
  induction ins as [|i ins IH]; simpl; [lia|].
  destruct (WDT_TIMEDOUT i); lia.
Qed.

Lemma held_blocks_step i s : held_blocks s -> held_blocks (loop_body i s).
Proof.
  unfold held_blocks. intros H. rewrite loop_btnState, loop_debounceOk.
  fold (pressed i). intros Hp. rewrite Hp, toggle_event_iff, Hp.
  destruct (c_true (btnState s)); cbn [negb andb]; [auto|].
  destruct (c_true (debounceOk s)) eqn:E; [reflexivity|exact E].
Qed.

Lemma held_blocks_run ins : forall s, held_blocks s -> held_blocks (run s ins).
Proof.
  induction ins as [|i ins IH]; intros s H; simpl; [exact H|].
  apply IH, held_blocks_step, H.
Qed.

(** After a pressed sample the window is closed and restarts from zero. *)
Lemma pressed_pass i s :
  held_blocks s -> pressed i = true ->
  c_true (debounceOk (loop_body i s)) = false /\
  elapsed8 (now (loop_body i s)) (btnTime (loop_body i s)) = 0.
Proof.
  intros H Hp. split.
  - apply (held_blocks_step i s H). rewrite loop_btnState. exact Hp.
  - rewrite loop_btnTime, Hp. unfold elapsed8. now rewrite Z.sub_diag.
Qed.

(** With the window closed, it reopens only after three ticks without a
    pressed sample. *)
Lemma debounce_wait mid : forall s k,
  0 <= k -> c_true (debounceOk s) = false ->
  elapsed8 (now s) (btnTime s) <= k ->
  Forall (fun i => pressed i = false) mid ->
  c_true (debounceOk (run s mid)) = true ->
  3 <= k + ticks mid.
Proof.
  induction mid as [|i mid IH]; intros s k Hk Hd He Hall Hr; simpl in *.
  - congruence.
  - inversion Hall as [|? ? Hi Hrest]; subst.
    pose proof (ticks_nonneg mid) as Hpos.
    pose proof (elapsed8_range (now s) (btnTime s)) as Hrg.
    assert (He' : elapsed8 (now (loop_body i s)) (btnTime s)
                  <= k + (if WDT_TIMEDOUT i then 1 else 0)).
    { rewrite loop_now. destruct (WDT_TIMEDOUT i); [|lia].
      rewrite elapsed8_succ. unfold u8.
      pose proof (Z.mod_le (elapsed8 (now s) (btnTime s) + 1) 256).
      lia. }
    pose proof (loop_debounceOk i s) as Hd'. rewrite Hi in Hd'.
    destruct (Z.leb_spec 3 (elapsed8 (now (loop_body i s)) (btnTime s)))
      as [H3|H3].
    + destruct (WDT_TIMEDOUT i); lia.
    + assert (Hb : btnTime (loop_body i s) = btnTime s)
        by (rewrite loop_btnTime, Hi; reflexivity).
      specialize (IH (loop_body i s)
                     (k + (if WDT_TIMEDOUT i then 1 else 0))).
      rewrite Hb, Hd' in IH.
      destruct (WDT_TIMEDOUT i); apply IH in Hr; auto; lia.
Qed.

Lemma released_no_toggle ins : forall s,
  Forall (fun i => pressed i = false) ins -> count_toggles s ins = O.
Proof.
  induction ins as [|i ins IH]; intros s Hall; simpl; [reflexivity|].
  inversion Hall as [|? ? Hi Hrest]; subst.
  rewrite toggle_event_iff, Hi, IH by assumption. reflexivity.
Qed.

Lemma held_no_toggle ins : forall s,
  c_true (btnState s) = true ->
  Forall (fun i => pressed i = true) ins -> count_toggles s ins = O.
Proof.
  induction ins as [|i ins IH]; intros s Hb Hall; simpl; [reflexivity|].
  inversion Hall as [|? ? Hi Hrest]; subst.
  rewrite toggle_event_iff, Hb, andb_false_r, IH; auto.
  rewrite loop_btnState. exact Hi.
Qed.

(** C5: a toggle event (the power flips, or the fault is acknowledged)
    occurs only in a pass whose button sample is pressed after an unpressed
    one ([btnState] holds the sample of the pass before) while [debounceOk]
    is set; the pass clears [debounceOk], which is set again only by a pass
    with an unpressed sample and [(now - btnTime) mod 256 >= 3].  Hence in
    every run from the initial state at least three ticks lie between the
    last pressed sample and the next toggle event, and a stretch of pressed
    samples followed by unpressed ones has at most one toggle event. *)
Theorem debounce_gates_toggles :
  (forall i s,
     toggle_event i s =
     pressed i && negb (c_true (btnState s)) && c_true (debounceOk s)) /\
  (forall i s, c_true (btnState (loop_body i s)) = pressed i) /\
  (forall i s, toggle_event i s = true ->
     debounceOk (loop_body i s) = 0 /\
     let s2 := button_processing (btnStateNow i) (timer_stuff i s) in
     if c_true (flagTriggered s)
     then flagTriggered s2 = 0 /\ powerOn s2 = powerOn s
     else powerOn s2 = c_not (powerOn s) /\ flagTriggered s2 = flagTriggered s) /\
  (forall i s,
     c_true (debounceOk s) = false ->
     c_true (debounceOk (loop_body i s)) = true ->
     pressed i = false /\ 3 <= elapsed8 (now (loop_body i s)) (btnTime s)) /\
  (forall pre p mid m,
     pressed p = true -> Forall (fun i => pressed i = false) mid ->
     toggle_event m (run init_state (pre ++ p :: mid)) = true ->
     3 <= ticks mid) /\
  (forall s held released,
     Forall (fun i => pressed i = true) held ->
     Forall (fun i => pressed i = false) released ->
     (count_toggles s (held ++ released) <= 1)%nat).
Proof.
  split; [exact toggle_event_iff|].
  split; [intros i s; now rewrite loop_btnState|].
  split; [|split; [|split]].
  - intros i s Ht. split.
    + rewrite loop_debounceOk, Ht.
      rewrite toggle_event_iff in Ht.
      destruct (pressed i); [reflexivity|discriminate].
    + cbv zeta. rewrite button_powerOn, button_flagTriggered, accepted_timer.
      rewrite <- toggle_event_accepted, Ht.
      destruct (timer_frame i s) as (_ & _ & -> & _ & _ & -> & _).
      destruct (c_true (flagTriggered s)) eqn:E; split; try reflexivity.
      apply c_true_false_iff in E. now rewrite E.
  - intros i s Hd Hd'. rewrite loop_debounceOk in Hd'.
    destruct (pressed i).
    + destruct (toggle_event i s); [discriminate|congruence].
    + split; [reflexivity|].
      destruct (Z.leb_spec 3 (elapsed8 (now (loop_body i s)) (btnTime s)));
        [assumption|congruence].
  - intros pre p mid m Hp Hmid Ht.
    change (pre ++ p :: mid) with (pre ++ [p] ++ mid) in Ht.
    rewrite !run_app in Ht. cbn [run] in Ht.
    assert (Hh : held_blocks (run init_state pre))
      by (apply held_blocks_run; intros H; discriminate).
    destruct (pressed_pass p _ Hh Hp) as [Hd He].
    rewrite toggle_event_iff in Ht.
    apply andb_true_iff in Ht. destruct Ht as [_ Hr].
    apply (debounce_wait mid _ 0) in Hr; try assumption; lia.
  - intros s held released Hheld Hrel.
    rewrite count_toggles_app, (released_no_toggle released) by assumption.
    destruct held as [|i held]; simpl; [lia|].
    inversion Hheld as [|? ? Hi Hrest]; subst.
    rewrite held_no_toggle; auto.
    + destruct (toggle_event i s); lia.
    + rewrite loop_btnState. exact Hi.
Qed.

(** A press at tick 0, three released ticks, and the press at tick 4 that
    is accepted: the three ticks of the window lie in between. *)
Lemma debounce_gates_toggles_witness :
  let idle := sample true false false in
  let press := sample true true false in
  (pressed (sample false true false) = true /\
   Forall (fun i => pressed i = false) [idle; idle; idle] /\
   toggle_event press
     (run init_state ([] ++ sample false true false :: [idle; idle; idle]))
   = true) /\
  3 <= ticks [idle; idle; idle].
Proof.
  cbv zeta.
  assert (H : Forall (fun i => pressed i = false)
                [sample true false false; sample true false false;
                 sample true false false]) by (repeat constructor).
  assert (Ht : toggle_event (sample true true false)
                 (run init_state ([] ++ sample false true false ::
                    [sample true false false; sample true false false;
                     sample true false false])) = true)
    by (vm_compute; reflexivity).
  split; [repeat split; assumption|].
  destruct debounce_gates_toggles as (_ & _ & _ & _ & Hgap & _).
  exact (Hgap [] (sample false true false) _ (sample true true false)
           eq_refl H Ht).
Defined.

(** C6, counterexample: in scenario A the press at tick 4 is not accepted
    and [powerOn] stays set, whether the button was released or held at
    tick 3: the press attempted at tick 2 has moved [btnTime] to 2, and
    [debounceOk] is still clear at tick 4. *)
Lemma press_at_tick_4_is_ignored :
  let press := sample true true false in
  (btnTime (run init_state (scenario_A false)) = 2 /\
   debounceOk (run init_state (scenario_A false)) = 0 /\
   now (loop_body press (run init_state (scenario_A false))) = 4 /\
   toggle_event press (run init_state (scenario_A false)) = false /\
   powerOn (loop_body press (run init_state (scenario_A false))) = 1) /\
  (now (loop_body press (run init_state (scenario_A true))) = 4 /\
   toggle_event press (run init_state (scenario_A true)) = false /\
   powerOn (loop_body press (run init_state (scenario_A true))) = 1).
Proof. vm_compute. repeat split. Qed.

(** C6, as amended: from the initial state, a press sampled at tick 0 and
    released at tick 1 sets [powerOn] at tick 0, with the LED green and the
    enable output active; the press attempted at tick 2 is ignored because
    [debounceOk] is clear, and it restarts the three-tick window, so the
    press at tick 4 is ignored too and [powerOn] stays set; with the button
    released from tick 3 to tick 5 the press at tick 6 is accepted and
    clears [powerOn].  Without the attempt at tick 2 the press at tick 4 is
    accepted and clears [powerOn].  (Every pressed sample, accepted or not,
    reloads [btnTime].) *)
Theorem scenario_A_press_window (b3 : bool) :
  let press0 := sample false true false in
  let press := sample true true false in
  let idle := sample true false false in
  (toggle_event press0 init_state = true /\
   now (loop_body press0 init_state) = 0 /\
   powerOn (loop_body press0 init_state) = 1 /\
   led_bits (loop_body press0 init_state) = LED_GREEN /\
   power_output_active (loop_body press0 init_state) = true) /\
  (now (run init_state [press0; idle; press]) = 2 /\
   toggle_event press (run init_state [press0; idle]) = false /\
   debounceOk (run init_state [press0; idle]) = 0 /\
   powerOn (run init_state [press0; idle; press]) = 1) /\
  (now (loop_body press (run init_state (scenario_A b3))) = 4 /\
   toggle_event press (run init_state (scenario_A b3)) = false /\
   powerOn (loop_body press (run init_state (scenario_A b3))) = 1) /\
  (now (run init_state (scenario_A false ++ [idle; idle; press])) = 6 /\
   toggle_event press (run init_state (scenario_A false ++ [idle; idle])) = true /\
   powerOn (run init_state (scenario_A false ++ [idle; idle; press])) = 0) /\
  (now (run init_state [press0; idle; idle; idle; press]) = 4 /\
   toggle_event press (run init_state [press0; idle; idle; idle]) = true /\
   powerOn (run init_state [press0; idle; idle; idle; press]) = 0) /\
  (forall i s, pressed i = true ->
     btnTime (loop_body i s) = now (loop_body i s)).
Proof.
  cbv zeta. split; [|split; [|split; [|split; [|split]]]].
  - vm_compute. repeat split.
  - vm_compute. repeat split.
  - destruct b3; vm_compute; repeat split.
  - vm_compute. repeat split.
  - vm_compute. repeat split.
  - intros i s Hp. now rewrite loop_btnTime, Hp.
Qed.

(** ** Elapsed time across the wrap of the tick counter *)

Lemma ready_stays ins : forall s,
  c_true (debounceOk s) = true ->
  Forall (fun i => WDT_TIMEDOUT i = true /\ pressed i = false) ins ->
  c_true (debounceOk (run s ins)) = true.
Proof.
  induction ins as [|i ins IH]; intros s Hd Hall; simpl; [exact Hd|].
  inversion Hall as [|? ? [_ Hi] Hrest]; subst.
  apply IH; [|exact Hrest].
  rewrite loop_debounceOk, Hi.
  destruct (3 <=? elapsed8 (now (loop_body i s)) (btnTime s));
    [reflexivity|exact Hd].
Qed.

Lemma released_elapsed ins : forall s,
  Forall (fun i => WDT_TIMEDOUT i = true /\ pressed i = false) ins ->
  btnTime (run s ins) = btnTime s /\
  elapsed8 (now (run s ins)) (btnTime s) =
  u8 (elapsed8 (now s) (btnTime s) + Z.of_nat (length ins)).
Proof.
  induction ins as [|i ins IH]; intros s Hall.
  - cbn [run length Z.of_nat]. rewrite Z.add_0_r.
    split; [reflexivity|]. unfold elapsed8. symmetry. apply u8_u8.
  - inversion Hall as [|? ? [Hw Hi] Hrest]; subst.
    cbn [run length]. rewrite Nat2Z.inj_succ.
    assert (Hb : btnTime (loop_body i s) = btnTime s)
      by (rewrite loop_btnTime, Hi; reflexivity).
    destruct (IH (loop_body i s) Hrest) as [A B].
    rewrite Hb in A, B. split; [exact A|].
    rewrite B, loop_now, Hw, elapsed8_succ. unfold u8.
    rewrite Zplus_mod_idemp_l. f_equal. lia.
Qed.

Lemma released_ready ins : forall s,
  c_true (debounceOk s) = false ->
  elapsed8 (now s) (btnTime s) < 3 ->
  Forall (fun i => WDT_TIMEDOUT i = true /\ pressed i = false) ins ->
  elapsed8 (now s) (btnTime s) + Z.of_nat (length ins) < 256 ->
  c_true (debounceOk (run s ins)) =
  (3 <=? elapsed8 (now s) (btnTime s) + Z.of_nat (length ins)).
Proof.
  induction ins as [|i ins IH]; intros s Hd H3 Hall Hlt.
  - cbn [length Z.of_nat run]. rewrite Z.add_0_r, Hd.
    symmetry. apply Z.leb_gt. exact H3.
  - inversion Hall as [|? ? [Hw Hi] Hrest]; subst.
    cbn [length run] in *. rewrite Nat2Z.inj_succ in *.
    pose proof (elapsed8_range (now s) (btnTime s)) as Hrg.
    assert (Hb : btnTime (loop_body i s) = btnTime s)
      by (rewrite loop_btnTime, Hi; reflexivity).
    assert (He : elapsed8 (now (loop_body i s)) (btnTime s)
                 = elapsed8 (now s) (btnTime s) + 1).
    { rewrite loop_now, Hw, elapsed8_succ. unfold u8.
      apply Z.mod_small. lia. }
    pose proof (loop_debounceOk i s) as Hd'. rewrite Hi, He in Hd'.
    destruct (Z.leb_spec 3 (elapsed8 (now s) (btnTime s) + 1)) as [Hge|Hlt3].
    + rewrite ready_stays; [|rewrite Hd'; reflexivity|exact Hrest].
      symmetry. apply Z.leb_le. lia.
    + specialize (IH (loop_body i s)). rewrite Hb, He, Hd' in IH.
      rewrite IH; try assumption; try lia.
      f_equal. lia.
Qed.

(** C8: both elapsed-time tests, the debounce test of line 134 and the
    pulse test of line 153, compare [(now - reference) mod 256]; that value
    is the number of ticks counted since the reference for any count below
    128, across the wrap from 255 to 0.  So with [debounceOk] clear and the
    button released, after [n] ticks [debounceOk] is set exactly when three
    ticks have gone by since the last pressed sample. *)
Theorem elapsed_ticks_across_wrap (s : state) (ins : list input) :
  c_true (debounceOk s) = false ->
  elapsed8 (now s) (btnTime s) < 3 ->
  Forall (fun i => WDT_TIMEDOUT i = true /\ pressed i = false) ins ->
  let d := elapsed8 (now s) (btnTime s) + Z.of_nat (length ins) in
  d < 128 ->
  (elapsed8 (now (run s ins)) (btnTime (run s ins)) = d /\
   c_true (debounceOk (run s ins)) = (3 <=? d)) /\
  (forall ref k, 0 <= ref < 256 -> 0 <= k < 128 ->
     elapsed8 (u8 (ref + k)) ref = k) /\
  (forall b s', c_true b = false ->
     debounceOk (button_processing b s') =
     if 3 <=? (now s' - btnTime s') mod 256 then 1 else debounceOk s') /\
  (forall f s',
     flagSet (flag_processing f s') =
     let fs := if c_true f then 1 else flagSet s' in
     let ft := if c_true f then 1 else flagTriggered s' in
     let ref := if c_true f && negb (c_true (flagSet s'))
                then now s' else flagTrigTime s' in
     if c_true ft && c_true fs && (2 <=? (now s' - ref) mod 256)
     then 0 else fs).
Proof.
  intros Hd H3 Hall. cbv zeta. intros Hlt.
  pose proof (elapsed8_range (now s) (btnTime s)) as Hrg.
  split; [|split; [|split]].
  - destruct (released_elapsed ins s Hall) as [A B].
    rewrite A, B. split.
    + unfold u8. apply Z.mod_small. lia.
    + apply released_ready; try assumption. lia.
  - intros ref k Href Hk. unfold elapsed8, u8.
    rewrite Zminus_mod_idemp_l.
    replace (ref + k - ref) with k by lia. apply Z.mod_small. lia.
  - intros b s' Hb. rewrite button_debounceOk, Hb. reflexivity.
  - intros f s'. rewrite flag_flagSet. cbv zeta.
    rewrite flag_flagTrigTime. reflexivity.
Qed.

(** Scenario D: the last pressed sample was at tick 254.  At tick 0, two
    ticks later, [debounceOk] is still clear; at tick 1, three ticks later,
    it is set, and it is set at tick 2. *)
Lemma elapsed_ticks_across_wrap_witness :
  let idle := sample true false false in
  (now pressed_at_254 = 254 /\ btnTime pressed_at_254 = 254 /\
   c_true (debounceOk pressed_at_254) = false) /\
  (now (run pressed_at_254 (repeat idle 2)) = 0 /\
   elapsed8 (now (run pressed_at_254 (repeat idle 2)))
            (btnTime (run pressed_at_254 (repeat idle 2))) = 0 + 2 /\
   c_true (debounceOk (run pressed_at_254 (repeat idle 2))) = false) /\
  (now (run pressed_at_254 (repeat idle 3)) = 1 /\
   elapsed8 (now (run pressed_at_254 (repeat idle 3)))
            (btnTime (run pressed_at_254 (repeat idle 3))) = 0 + 3 /\
   c_true (debounceOk (run pressed_at_254 (repeat idle 3))) = true) /\
  (now (run pressed_at_254 (repeat idle 4)) = 2 /\
   elapsed8 (now (run pressed_at_254 (repeat idle 4)))
            (btnTime (run pressed_at_254 (repeat idle 4))) = 0 + 4 /\
   c_true (debounceOk (run pressed_at_254 (repeat idle 4))) = true).
Proof.
  cbv zeta.
  set (idle := sample true false false).
  assert (Hd : c_true (debounceOk pressed_at_254) = false)
    by (vm_compute; reflexivity).
  assert (He : elapsed8 (now pressed_at_254) (btnTime pressed_at_254) = 0)
    by (vm_compute; reflexivity).
  assert (H3 : elapsed8 (now pressed_at_254) (btnTime pressed_at_254) < 3)
    by (rewrite He; lia).
  assert (Hall : forall n,
            Forall (fun i => WDT_TIMEDOUT i = true /\ pressed i = false)
              (repeat idle n)).
  { intros n. induction n; simpl; constructor; auto. }
  split; [repeat split; try assumption; vm_compute; reflexivity|].
  split; [|split].
  - destruct (elapsed_ticks_across_wrap pressed_at_254 (repeat idle 2)
                Hd H3 (Hall 2%nat)) as ((A & B) & _).
    + rewrite He. simpl. lia.
    + rewrite He in A, B. split; [vm_compute; reflexivity|].
      split; [exact A|exact B].
  - destruct (elapsed_ticks_across_wrap pressed_at_254 (repeat idle 3)
                Hd H3 (Hall 3%nat)) as ((A & B) & _).
    + rewrite He. simpl. lia.
    + rewrite He in A, B. split; [vm_compute; reflexivity|].
      split; [exact A|exact B].
  - destruct (elapsed_ticks_across_wrap pressed_at_254 (repeat idle 4)
                Hd H3 (Hall 4%nat)) as ((A & B) & _).
    + rewrite He. simpl. lia.
    + rewrite He in A, B. split; [vm_compute; reflexivity|].
      split; [exact A|exact B].
Defined.

(** * Beyond the claims: the rest of [main] *)

(** ** The time base *)

Lemma u8_range x : is_u8 (u8 x).
Proof. unfold is_u8, u8. apply Z.mod_pos_bound. lia. Qed.

Lemma u8_small x : is_u8 x -> u8 x = x.
Proof. unfold is_u8, u8. intros H. apply Z.mod_small. exact H. Qed.

Lemma c_not_flag x : is_flag (c_not x).
Proof. unfold is_flag, c_not. destruct (x =? 0); auto. Qed.

(** X1: [now] counts the watchdog ticks of a run modulo 256, and nothing
    else moves it: after any run it is the start value plus the number of
    passes that found the watchdog timed out, reduced to eight bits. *)
Theorem now_counts_ticks (s : state) (ins : list input) :
  is_u8 (now s) ->
  now (run s ins) = u8 (now s + ticks ins).
Proof.
  revert s. induction ins as [|i ins IH]; intros s Hs; cbn [run ticks].
  - rewrite Z.add_0_r. symmetry. apply u8_small, Hs.
  - rewrite IH.
    + rewrite loop_now. destruct (WDT_TIMEDOUT i).
      * unfold u8. rewrite Zplus_mod_idemp_l. f_equal. lia.
      * f_equal.
    + rewrite loop_now. destruct (WDT_TIMEDOUT i); [apply u8_range|exact Hs].
Qed.

(** 300 ticks after power-on the counter has wrapped once. *)
Lemma now_counts_ticks_witness :
  is_u8 (now init_state) /\
  now (run init_state (repeat (sample true false false) 300)) =
  u8 (now init_state + ticks (repeat (sample true false false) 300)) /\
  u8 (now init_state + ticks (repeat (sample true false false) 300)) = 44.
Proof.
  assert (H : is_u8 (now init_state)) by (split; [discriminate|reflexivity]).
  split; [exact H|]. split.
  - exact (now_counts_ticks init_state _ H).
  - vm_compute. reflexivity.
Defined.

(** ** Every variable stays an eight-bit value *)

Ltac split_wf := repeat match goal with |- _ /\ _ => split end.

Lemma wf_timer i s : well_formed s -> well_formed (timer_stuff i s).
Proof.
  unfold well_formed, timer_stuff. intros H.
  destruct (WDT_TIMEDOUT i); [|exact H]. proj.
  split; [apply u8_range|tauto].
Qed.

Lemma wf_button b s :
  is_flag b -> well_formed s -> well_formed (button_processing b s).
Proof.
  unfold well_formed. intros Hb H.
  destruct (button_frame b s) as (-> & -> & -> & -> & -> & ->).
  rewrite button_btnTime, button_flagTriggered, button_powerOn,
    button_debounceOk.
  destruct H as (H1 & H2 & H3 & H4 & H5 & H6 & H7 & H8 & H9 & H10).
  split_wf; try assumption;
    repeat match goal with
           | |- context [if ?c then _ else _] => destruct c
           end;
    try assumption; try apply c_not_flag;
    try (left; reflexivity); try (right; reflexivity).
Qed.

Lemma wf_FLAGSET s : well_formed s -> well_formed (FLAGSET s).
Proof.
  unfold well_formed, FLAGSET. proj. intros H.
  split_wf; try apply H; apply u8_range.
Qed.

Lemma wf_FLAGCLEAR s : well_formed s -> well_formed (FLAGCLEAR s).
Proof.
  unfold well_formed, FLAGCLEAR. proj. intros H.
  split_wf; try apply H; apply u8_range.
Qed.

Lemma wf_flag f s : well_formed s -> well_formed (flag_processing f s).
Proof.
  intros H. unfold flag_processing.
  set (s1 := if c_true f then _ else s).
  assert (H1 : well_formed s1).
  { subst s1. destruct (c_true f); [|exact H].
    assert (H2 : well_formed
                   (set_powerOn 0 (set_flagTriggered 1
                      (if c_true (c_not (flagSet s))
                       then set_flagTrigTime (now s) s else s)))).
    { destruct (c_true (c_not (flagSet s))); unfold well_formed in *; proj;
        split_wf; try apply H; try (left; reflexivity);
        try (right; reflexivity). }
    apply wf_FLAGSET in H2. unfold well_formed in *. proj.
    split_wf; try apply H2; right; reflexivity. }
  clearbody s1.
  destruct (c_true (flagTriggered s1) && c_true (flagSet s1)
            && (2 <=? elapsed8 (now s1) (flagTrigTime s1))); [|exact H1].
  apply wf_FLAGCLEAR in H1. unfold well_formed in *. proj.
  split_wf; try apply H1; left; reflexivity.
Qed.

Lemma wf_leds s : well_formed s -> well_formed (power_and_leds s).
Proof.
  unfold well_formed. intros H.
  destruct (leds_frame s) as (-> & -> & -> & -> & -> & -> & -> & -> & ->).
  split_wf; try apply H.
  unfold power_and_leds. crunch; exact (u8_range _).
Qed.

Lemma wf_loop i s : well_formed s -> well_formed (loop_body i s).
Proof.
  intros H. unfold loop_body.
  apply wf_leds, wf_flag, wf_button; [apply c_not_flag|].
  apply wf_timer, H.
Qed.

Lemma wf_port_setup s : well_formed s -> well_formed (port_setup s).
Proof.
  unfold well_formed, port_setup. proj. intros H.
  split_wf; try apply H; apply u8_range.
Qed.

Lemma wf_LEDSET led s : well_formed s -> well_formed (LEDSET led s).
Proof.
  unfold well_formed, LEDSET. proj. intros H.
  split_wf; try apply H; apply u8_range.
Qed.

Lemma init_state_setup : init_state = power_on_flashy (port_setup reset_state).
Proof. reflexivity. Qed.

Lemma wf_init : well_formed init_state.
Proof.
  rewrite init_state_setup. unfold power_on_flashy.
  apply wf_LEDSET. cbn [Nat.iter].
  do 8 apply wf_LEDSET. apply wf_port_setup.
  unfold well_formed, reset_state, is_u8, is_flag. proj.
  split_wf; try lia; auto.
Qed.

Lemma wf_run_from ins : forall s, well_formed s -> well_formed (run s ins).
Proof.
  induction ins as [|i ins IH]; intros s H; cbn [run]; [exact H|].
  apply IH, wf_loop, H.
Qed.

(** X2: in every state the program reaches, each of the eight locals and
    both port registers holds a value from 0 to 255, and [btnState],
    [flagTriggered], [flagSet], [powerOn] and [debounceOk] hold 0 or 1,
    whatever values are read from the pin register. *)
Theorem reachable_well_formed (ins : list input) :
  let s := run init_state ins in
  (is_u8 (now s) /\ is_u8 (btnTime s) /\ is_u8 (flagTrigTime s) /\
   is_u8 (PORTB s) /\ is_u8 (DDRB s)) /\
  (is_flag (btnState s) /\ is_flag (flagTriggered s) /\ is_flag (flagSet s) /\
   is_flag (powerOn s) /\ is_flag (debounceOk s)).
Proof.
  cbv zeta.
  pose proof (wf_run_from ins init_state wf_init) as H.
  unfold well_formed in H.
  destruct H as (H1 & H2 & H3 & H4 & H5 & H6 & H7 & H8 & H9 & H10).
  split_wf; assumption.
Qed.

(** ** What the loop does to the pins *)

Lemma bv_bit k n : 0 <= k -> 0 <= n -> Z.testbit (_BV k) n = (n =? k).
Proof.
  intros Hk Hn. unfold _BV. rewrite Z.shiftl_1_l, Z.pow2_bits_eqb by lia.
  apply Z.eqb_sym.
Qed.

Lemma FLAGSET_bits s n :
  0 <= n < 8 ->
  Z.testbit (PORTB (FLAGSET s)) n = Z.testbit (PORTB s) n && negb (n =? PORTB4) /\
  Z.testbit (DDRB (FLAGSET s)) n = Z.testbit (DDRB s) n || (n =? DDB4).
Proof.
  intros Hn. unfold FLAGSET. proj. rewrite !testbit_u8 by lia.
  rewrite Z.land_spec, Z.lor_spec, Z.lnot_spec by lia.
  rewrite !bv_bit by (unfold PORTB4, DDB4; lia). split; reflexivity.
Qed.

Lemma FLAGCLEAR_bits s n :
  0 <= n < 8 ->
  Z.testbit (PORTB (FLAGCLEAR s)) n = Z.testbit (PORTB s) n || (n =? PORTB4) /\
  Z.testbit (DDRB (FLAGCLEAR s)) n = Z.testbit (DDRB s) n && negb (n =? DDB4).
Proof.
  intros Hn. unfold FLAGCLEAR. proj. rewrite !testbit_u8 by lia.
  rewrite Z.land_spec, Z.lor_spec, Z.lnot_spec by lia.
  rewrite !bv_bit by (unfold PORTB4, DDB4; lia). split; reflexivity.
Qed.

(** The flag code writes bit 4 of the two registers and no other. *)
Lemma flag_other_bits f s n :
  0 <= n < 8 -> n <> 4 ->
  Z.testbit (PORTB (flag_processing f s)) n = Z.testbit (PORTB s) n /\
  Z.testbit (DDRB (flag_processing f s)) n = Z.testbit (DDRB s) n.
Proof.
  intros Hn H4. unfold flag_processing.
  set (s1 := if c_true f then _ else s).
  assert (H1 : Z.testbit (PORTB s1) n = Z.testbit (PORTB s) n /\
               Z.testbit (DDRB s1) n = Z.testbit (DDRB s) n).
  { subst s1. destruct (c_true f); [|split; reflexivity].
    change (PORTB (set_flagSet 1 ?x)) with (PORTB x).
    change (DDRB (set_flagSet 1 ?x)) with (DDRB x).
    destruct (FLAGSET_bits
                (set_powerOn 0 (set_flagTriggered 1
                   (if c_true (c_not (flagSet s))
                    then set_flagTrigTime (now s) s else s))) n Hn)
      as [-> ->].
    unfold PORTB4, DDB4. replace (n =? 4) with false
      by (symmetry; apply Z.eqb_neq; exact H4).
    rewrite andb_true_r, orb_false_r.
    destruct (c_true (c_not (flagSet s))); split; reflexivity. }
  clearbody s1. destruct H1 as [<- <-].
  destruct (c_true (flagTriggered s1) && c_true (flagSet s1)
            && (2 <=? elapsed8 (now s1) (flagTrigTime s1)));
    [|split; reflexivity].
  change (PORTB (set_flagSet 0 ?x)) with (PORTB x).
  change (DDRB (set_flagSet 0 ?x)) with (DDRB x).
  destruct (FLAGCLEAR_bits s1 n Hn) as [-> ->].
  unfold PORTB4, DDB4. replace (n =? 4) with false
    by (symmetry; apply Z.eqb_neq; exact H4).
  rewrite andb_true_r, orb_false_r. split; reflexivity.
Qed.

Lemma loop_other_bits i s n :
  0 <= n < 8 ->
  (n <> DDB4 -> Z.testbit (DDRB (loop_body i s)) n = Z.testbit (DDRB s) n) /\
  (n = PORTB2 \/ 5 <= n ->
   Z.testbit (PORTB (loop_body i s)) n = Z.testbit (PORTB s) n).
Proof.
  intros Hn. unfold loop_body, DDB4, PORTB2.
  set (s2 := button_processing (btnStateNow i) (timer_stuff i s)).
  assert (Hs2 : PORTB s2 = PORTB s /\ DDRB s2 = DDRB s).
  { subst s2.
    destruct (button_frame (btnStateNow i) (timer_stuff i s))
      as (_ & _ & _ & _ & -> & ->).
    destruct (timer_frame i s) as (_ & _ & _ & _ & _ & _ & _ & -> & ->).
    split; reflexivity. }
  destruct Hs2 as [HP HD]. split.
  - intros H4.
    destruct (leds_frame (flag_processing (flagStateNow i) s2))
      as (_ & _ & _ & _ & _ & _ & _ & _ & ->).
    destruct (flag_other_bits (flagStateNow i) s2 n Hn H4) as [_ ->].
    now rewrite HD.
  - intros Hm. rewrite leds_bit by exact Hn. unfold PORTB3.
    replace (n <? 2) with false by (symmetry; apply Z.ltb_ge; lia).
    replace (n =? 3) with false by (symmetry; apply Z.eqb_neq; lia).
    destruct (flag_other_bits (flagStateNow i) s2 n Hn) as [-> _]; [lia|].
    now rewrite HP.
Qed.

(** X3: the loop writes the LED bits 0 and 1, the enable bit 3 and the
    /FLAG bit 4 of [PORTB], and bit 4 of [DDRB], and nothing else: over any
    run the button's pull-up bit 2 and bits 5 to 7 of [PORTB] keep their
    value, and so does every direction bit other than bit 4. *)
Theorem loop_leaves_other_pins (s : state) (ins : list input) (n : Z) :
  0 <= n < 8 ->
  (n <> DDB4 -> Z.testbit (DDRB (run s ins)) n = Z.testbit (DDRB s) n) /\
  (n = PORTB2 \/ 5 <= n ->
   Z.testbit (PORTB (run s ins)) n = Z.testbit (PORTB s) n).
Proof.
  intros Hn. revert s.
  induction ins as [|i ins IH]; intros s; cbn [run]; [split; reflexivity|].
  destruct (IH (loop_body i s)) as [HD HP].
  destruct (loop_other_bits i s n Hn) as [HD1 HP1].
  split; intros H.
  - rewrite HD, HD1; auto.
  - rewrite HP, HP1; auto.
Qed.

(** After a fault, a press and a pulse the button pull-up is still on and
    the button pin is still an input. *)
Lemma loop_leaves_other_pins_witness :
  let ins := fault_then_ack ++ repeat (sample true true true) 5 in
  0 <= PORTB2 < 8 /\
  Z.testbit (DDRB (run init_state ins)) PORTB2 =
  Z.testbit (DDRB init_state) PORTB2 /\
  Z.testbit (PORTB (run init_state ins)) PORTB2 =
  Z.testbit (PORTB init_state) PORTB2 /\
  Z.testbit (PORTB init_state) PORTB2 = true /\
  Z.testbit (DDRB init_state) PORTB2 = false.
Proof.
  cbv zeta.
  assert (Hn : 0 <= PORTB2 < 8) by (unfold PORTB2; lia).
  split; [exact Hn|].
  destruct (loop_leaves_other_pins init_state
              (fault_then_ack ++ repeat (sample true true true) 5) PORTB2 Hn)
    as [HD HP].
  split; [apply HD; discriminate|].
  split; [apply HP; left; reflexivity|].
  split; reflexivity.
Defined.

(** ** The open-drain /FLAG pin *)

Lemma pin_states_exclusive s :
  (flag_driven_low s = true -> flag_released s = false /\ flag_driven_high s = false) /\
  (flag_released s = true -> flag_driven_low s = false /\ flag_driven_high s = false).
Proof.
  unfold flag_driven_low, flag_released, flag_driven_high.
  destruct (Z.testbit (DDRB s) DDB4), (Z.testbit (PORTB s) PORTB4);
    cbn [andb negb]; split; intros H; try discriminate; split; reflexivity.
Qed.

(** A pass that samples no fault with no pulse active skips the flag code. *)
Lemma flag_idle f s :
  c_true f = false -> c_true (flagSet s) = false -> flag_processing f s = s.
Proof.
  intros Hf Hs. unfold flag_processing. rewrite Hf, Hs.
  now rewrite andb_false_r.
Qed.

Lemma loop_flag_idle i s :
  fault_asserted i = false -> c_true (flagSet s) = false ->
  flagSet (loop_body i s) = flagSet s /\
  flagTrigTime (loop_body i s) = flagTrigTime s /\
  DDRB (loop_body i s) = DDRB s /\
  flag_driven_low (loop_body i s) = flag_driven_low s /\
  flag_released (loop_body i s) = flag_released s.
Proof.
  intros Hf Hs. unfold loop_body.
  set (s2 := button_processing (btnStateNow i) (timer_stuff i s)).
  assert (H2 : flagSet s2 = flagSet s /\ flagTrigTime s2 = flagTrigTime s /\
               PORTB s2 = PORTB s /\ DDRB s2 = DDRB s).
  { subst s2.
    destruct (button_frame (btnStateNow i) (timer_stuff i s))
      as (_ & _ & -> & -> & -> & ->).
    destruct (timer_frame i s) as (_ & _ & _ & -> & -> & _ & _ & -> & ->).
    repeat split. }
  destruct H2 as (A & B & C & D).
  rewrite flag_idle; [|exact Hf|rewrite A; exact Hs].
  destruct (leds_frame s2) as (_ & _ & _ & _ & -> & -> & _ & _ & ->).
  destruct (leds_outputs s2) as (_ & _ & -> & ->).
  unfold flag_driven_low, flag_released. rewrite A, B, C, D.
  repeat split.
Qed.

Lemma pin_follows_step i s :
  pin_follows_flagSet s -> pin_follows_flagSet (loop_body i s).
Proof.
  unfold pin_follows_flagSet. intros [Hlow Hrel].
  assert (Hpin := loop_pin i s). cbv zeta in Hpin.
  destruct (c_true (flagSet (loop_body i s))) eqn:E'.
  - assert (H : flag_driven_low (loop_body i s) = true)
      by (apply Hpin; intros Hs; rewrite Hlow; exact Hs).
    destruct (proj1 (pin_states_exclusive _) H) as [-> _]. auto.
  - destruct (fault_asserted i || c_true (flagSet s)) eqn:E.
    + assert (H : flag_released (loop_body i s) = true).
      { apply Hpin; [|reflexivity]. intros Hs. rewrite Hlow. exact Hs. }
      destruct (proj2 (pin_states_exclusive _) H) as [-> _]. auto.
    + apply orb_false_iff in E. destruct E as [Hf Hs].
      destruct (loop_flag_idle i s Hf Hs) as (_ & _ & _ & -> & ->).
      rewrite Hlow, Hrel, Hs. auto.
Qed.

Lemma pin_follows_run ins : forall s,
  pin_follows_flagSet s -> pin_follows_flagSet (run s ins).
Proof.
  induction ins as [|i ins IH]; intros s H; cbn [run]; [exact H|].
  apply IH, pin_follows_step, H.
Qed.

Lemma high_needs_bit4 s :
  flag_driven_high s = Z.testbit (DDRB s) 4 && Z.testbit (PORTB s) 4.
Proof. reflexivity. Qed.

(** X4: the firmware uses /FLAG as an open-drain pin and never drives it
    high.  In every state reached from power-on the pin is an output
    driving low exactly while [flagSet] is set and an input with its
    pull-up otherwise; between the two register writes of [FLAGSET()] and
    of [FLAGCLEAR()] it is an input or drives low, whatever the registers
    held before; and the LED and enable macros leave it as it is. *)
Theorem flag_pin_never_driven_high (ins : list input) :
  let s := run init_state ins in
  (flag_driven_low s = c_true (flagSet s) /\
   flag_released s = negb (c_true (flagSet s)) /\
   flag_driven_high s = false) /\
  (forall s',
     FLAGSET s' = set_DDRB (u8 (Z.lor (DDRB s') (_BV DDB4))) (FLAGSET_first s') /\
     flag_driven_high (FLAGSET_first s') = false /\
     flag_driven_high (FLAGSET s') = false /\
     FLAGCLEAR s' =
       set_PORTB (u8 (Z.lor (PORTB s') (_BV PORTB4))) (FLAGCLEAR_first s') /\
     flag_driven_high (FLAGCLEAR_first s') = false /\
     flag_driven_high (FLAGCLEAR s') = false) /\
  (forall s' led,
     led = LED_OFF \/ led = LED_RED \/ led = LED_GREEN ->
     flag_driven_high (LEDSET led s') = flag_driven_high s' /\
     flag_driven_high (POWERON s') = flag_driven_high s' /\
     flag_driven_high (POWEROFF s') = flag_driven_high s').
Proof.
  cbv zeta. split; [|split].
  - assert (H : pin_follows_flagSet (run init_state ins))
      by (apply pin_follows_run; split; reflexivity).
    destruct H as [Hlow Hrel]. split; [exact Hlow|]. split; [exact Hrel|].
    destruct (c_true (flagSet (run init_state ins))).
    + apply (proj1 (pin_states_exclusive _) Hlow).
    + apply (proj2 (pin_states_exclusive _) Hrel).
  - intros s'.
    assert (H8 : 0 <= 4 < 8) by lia.
    destruct (FLAGSET_bits s' 4 H8) as [HSP HSD].
    destruct (FLAGCLEAR_bits s' 4 H8) as [HCP HCD].
    split; [reflexivity|]. split; [|split; [|split; [reflexivity|split]]].
    + rewrite high_needs_bit4. change (PORTB (FLAGSET_first s'))
        with (PORTB (FLAGSET s')).
      rewrite HSP. unfold PORTB4. cbn. now rewrite !andb_false_r.
    + rewrite high_needs_bit4, HSP. unfold PORTB4. cbn.
      now rewrite !andb_false_r.
    + rewrite high_needs_bit4. change (DDRB (FLAGCLEAR_first s'))
        with (DDRB (FLAGCLEAR s')).
      rewrite HCD. unfold DDB4. cbn. now rewrite andb_false_r.
    + rewrite high_needs_bit4, HCD. unfold DDB4. cbn.
      now rewrite andb_false_r.
  - intros s' led Hled. rewrite !high_needs_bit4.
    change (DDRB (LEDSET led s')) with (DDRB s').
    change (DDRB (POWERON s')) with (DDRB s').
    change (DDRB (POWEROFF s')) with (DDRB s').
    rewrite LEDSET_bit, POWERON_bit, POWEROFF_bit by lia.
    unfold PORTB3.
    change (4 <? 2) with false. change (4 =? 3) with false.
    assert (Z.testbit led 4 = false) as ->
      by (destruct Hled as [->|[->| ->]]; reflexivity).
    destruct (Z.testbit (DDRB s') 4), (Z.testbit (PORTB s') 4);
      repeat split.
Qed.

(** X5: the firmware starts to pull /FLAG low only in a pass that sampled
    it low.  With no pulse active, over any run whose samples all read the
    fault input high, [flagSet] and [flagTrigTime] keep their values, the
    direction register is not written and the pin stays as it was. *)
Theorem no_pulse_without_fault_sample (s : state) (ins : list input) :
  c_true (flagSet s) = false ->
  Forall (fun i => fault_asserted i = false) ins ->
  flagSet (run s ins) = flagSet s /\
  flagTrigTime (run s ins) = flagTrigTime s /\
  DDRB (run s ins) = DDRB s /\
  flag_driven_low (run s ins) = flag_driven_low s /\
  flag_released (run s ins) = flag_released s.
Proof.
  revert s. induction ins as [|i ins IH]; intros s Hs Hall; cbn [run].
  - repeat split.
  - inversion Hall as [|? ? Hi Hrest]; subst.
    destruct (loop_flag_idle i s Hi Hs) as (A & B & C & D & E).
    destruct (IH (loop_body i s)) as (A' & B' & C' & D' & E');
      [rewrite A; exact Hs|exact Hrest|].
    rewrite A', B', C', D', E'. auto.
Qed.

(** Presses and ticks alone, from power-on: the pin stays released. *)
Lemma no_pulse_without_fault_sample_witness :
  let ins := [sample true true false; sample true false false;
              sample true false false; sample true false false;
              sample true true false] in
  (c_true (flagSet init_state) = false /\
   Forall (fun i => fault_asserted i = false) ins) /\
  flagSet (run init_state ins) = flagSet init_state /\
  flag_released (run init_state ins) = flag_released init_state /\
  flag_released init_state = true.
Proof.
  cbv zeta.
  assert (H : Forall (fun i => fault_asserted i = false)
                [sample true true false; sample true false false;
                 sample true false false; sample true false false;
                 sample true true false]) by (repeat constructor).
  split; [split; [reflexivity|exact H]|].
  destruct (no_pulse_without_fault_sample init_state _ eq_refl H)
    as (A & _ & _ & _ & E).
  split; [exact A|]. split; [exact E|reflexivity].
Defined.

(** ** Power-on *)

Lemma LEDSET_led led s :
  led = LED_OFF \/ led = LED_RED \/ led = LED_GREEN ->
  led_bits (LEDSET led s) = led.
Proof.
  intros Hled. unfold led_bits.
  change (Z.lor (_BV PORTB0) (_BV PORTB1)) with 3.
  apply land3_eq.
  - destruct Hled as [->|[->| ->]]; cbv; split; congruence.
  - rewrite LEDSET_bit by lia. change (0 <? 2) with true.
    cbn [negb]. now rewrite andb_false_r.
  - rewrite LEDSET_bit by lia. change (1 <? 2) with true.
    cbn [negb]. now rewrite andb_false_r.
Qed.

Lemma LEDSET_keeps led s :
  led = LED_OFF \/ led = LED_RED \/ led = LED_GREEN ->
  power_output_active (LEDSET led s) = power_output_active s /\
  flag_released (LEDSET led s) = flag_released s.
Proof.
  intros Hled. unfold power_output_active, flag_released.
  change (DDRB (LEDSET led s)) with (DDRB s).
  unfold PORTB3, PORTB4. rewrite !LEDSET_bit by lia.
  change (3 <? 2) with false. change (4 <? 2) with false.
  assert (Z.testbit led 3 = false /\ Z.testbit led 4 = false) as [-> ->]
    by (destruct Hled as [->|[->| ->]]; split; reflexivity).
  cbn [negb]. now rewrite !andb_true_r, !orb_false_r.
Qed.

Lemma last_cons_default (l : list state) : forall a d,
  last (a :: l) d = last l a.
Proof.
  induction l as [|b l IH]; intros a d; [reflexivity|].
  change (last (a :: b :: l) d) with (last (b :: l) d).
  now rewrite !IH.
Qed.

Lemma flash_cycles_spec n : forall s,
  Forall (fun s' => power_output_active s' = power_output_active s /\
                    flag_released s' = flag_released s) (flash_cycles n s) /\
  map led_bits (flash_cycles n s) = concat (repeat [LED_RED; LED_GREEN] n) /\
  last (flash_cycles n s) s =
    Nat.iter n (fun s' => LEDSET LED_GREEN (LEDSET LED_RED s')) s /\
  power_output_active (last (flash_cycles n s) s) = power_output_active s /\
  flag_released (last (flash_cycles n s) s) = flag_released s.
Proof.
  induction n as [|n IH]; intros s.
  - cbn. repeat split. constructor.
  - cbn [flash_cycles].
    set (r := LEDSET LED_RED s). set (g := LEDSET LED_GREEN r).
    destruct (IH g) as (Hall & Hmap & Hlast & HP & HF).
    destruct (LEDSET_keeps LED_RED s) as [Pr Fr]; [auto|].
    destruct (LEDSET_keeps LED_GREEN r) as [Pg Fg]; [auto|].
    fold r in Pr, Fr. fold g in Pg, Fg.
    rewrite !last_cons_default.
    split; [|split; [|split; [|split]]].
    + constructor; [split; assumption|].
      constructor; [split; congruence|].
      eapply Forall_impl; [|exact Hall].
      cbv beta. intros a [A B]. split; congruence.
    + cbn [map repeat concat app]. rewrite Hmap.
      subst g r. rewrite !LEDSET_led by auto. reflexivity.
    + rewrite Nat.iter_succ_r. exact Hlast.
    + congruence.
    + congruence.
Qed.

(** X6: the power-on flash shows red, green four times over and ends with
    the LED off, and it writes the two LED pins only: through every step of
    it the enable output stays inactive and /FLAG stays an input with its
    pull-up, as the port set-up left them, so the load is not powered
    before the loop first runs. *)
Theorem power_on_flash_keeps_power_off (s : state) :
  power_output_active s = false -> flag_released s = true ->
  Forall (fun s' => power_output_active s' = false /\ flag_released s' = true)
    (flash_trace s) /\
  map led_bits (flash_trace s) =
    [LED_RED; LED_GREEN; LED_RED; LED_GREEN;
     LED_RED; LED_GREEN; LED_RED; LED_GREEN; LED_OFF] /\
  last (flash_trace s) s = power_on_flashy s.
Proof.
  intros Hp Hf. unfold flash_trace, power_on_flashy.
  destruct (flash_cycles_spec 4 s) as (Hall & Hmap & Hlast & HP & HF).
  split; [|split].
  - apply Forall_app. split.
    + eapply Forall_impl; [|exact Hall]. cbv beta.
      intros a [A B]. split; congruence.
    + constructor; [|constructor].
      destruct (LEDSET_keeps LED_OFF (last (flash_cycles 4 s) s))
        as [-> ->]; [auto|]. split; congruence.
  - rewrite map_app, Hmap. cbn [map]. rewrite LEDSET_led by auto.
    reflexivity.
  - rewrite last_last, Hlast. reflexivity.
Qed.

(** The flash after the port set-up of lines 69-70, which leaves the enable
    output inactive and /FLAG released; it ends in the initial state of the
    loop. *)
Lemma power_on_flash_keeps_power_off_witness :
  (power_output_active (port_setup reset_state) = false /\
   flag_released (port_setup reset_state) = true) /\
  Forall (fun s' => power_output_active s' = false /\ flag_released s' = true)
    (flash_trace (port_setup reset_state)) /\
  last (flash_trace (port_setup reset_state)) (port_setup reset_state)
  = init_state.
Proof.
  split; [split; reflexivity|].
  destruct (power_on_flash_keeps_power_off (port_setup reset_state)
              eq_refl eq_refl) as (A & _ & C).
  split; [exact A|]. rewrite C. reflexivity.
Defined.

(** ** Button and power *)

(** After at least one pass the pins show the state. *)
Lemma outputs_after_run ins : forall s,
  ins <> [] ->
  led_bits (run s ins) =
    (if c_true (powerOn (run s ins)) then LED_GREEN
     else if c_true (flagTriggered (run s ins)) then LED_RED else LED_OFF) /\
  power_output_active (run s ins) = c_true (powerOn (run s ins)).
Proof.
  induction ins as [|j pre _] using rev_ind; intros s Hne; [congruence|].
  rewrite run_app. cbn [run]. apply loop_outputs.
Qed.

(** X7: power is switched on by the button only.  If the enable output is
    active after a run from power-on, the run contains a pass with a
    pressed sample that was accepted as a toggle event while no fault was
    latched. *)
Theorem no_power_without_press (ins : list input) :
  power_output_active (run init_state ins) = true ->
  exists pre j post,
    ins = pre ++ j :: post /\ pressed j = true /\
    toggle_event j (run init_state pre) = true /\
    c_true (flagTriggered (run init_state pre)) = false.
Proof.
  intros Hact.
  assert (Hon : c_true (powerOn (run init_state ins)) = true).
  { destruct ins as [|i ins]; [discriminate|].
    destruct (outputs_after_run (i :: ins) init_state) as [_ <-];
      [discriminate|exact Hact]. }
  destruct (power_on_needs_toggle ins init_state eq_refl Hon)
    as (pre & j & post & -> & Ht & Hf).
  exists pre, j, post. repeat split; try assumption.
  rewrite toggle_event_iff in Ht.
  destruct (pressed j); [reflexivity|discriminate].
Qed.

(** Two idle ticks and a press: the press is the pass found. *)
Lemma no_power_without_press_witness :
  let idle := sample true false false in
  let press := sample true true false in
  power_output_active (run init_state [idle; idle; press]) = true /\
  exists pre j post,
    [idle; idle; press] = pre ++ j :: post /\ pressed j = true /\
    toggle_event j (run init_state pre) = true /\
    c_true (flagTriggered (run init_state pre)) = false.
Proof.
  cbv zeta.
  assert (H : power_output_active
                (run init_state [sample true false false;
                                 sample true false false;
                                 sample true true false]) = true)
    by (vm_compute; reflexivity).
  split; [exact H|]. exact (no_power_without_press _ H).
Defined.

(** Without a pressed sample the debouncer stays ready. *)
Lemma idle_ready ins : forall s,
  c_true (debounceOk s) = true -> c_true (btnState s) = false ->
  Forall (fun i => pressed i = false) ins ->
  c_true (debounceOk (run s ins)) = true /\
  c_true (btnState (run s ins)) = false.
Proof.
  induction ins as [|i ins IH]; intros s Hd Hb Hall; cbn [run]; [auto|].
  inversion Hall as [|? ? Hi Hrest]; subst.
  apply IH; [| |exact Hrest].
  - rewrite loop_debounceOk, Hi.
    destruct (3 <=? elapsed8 (now (loop_body i s)) (btnTime s));
      [reflexivity|exact Hd].
  - rewrite loop_btnState. exact Hi.
Qed.

(** Without a pressed or a fault sample the logical state stands still. *)
Lemma quiet_run ins : forall s,
  Forall (fun i => pressed i = false /\ fault_asserted i = false) ins ->
  powerOn (run s ins) = powerOn s /\
  flagTriggered (run s ins) = flagTriggered s.
Proof.
  induction ins as [|i ins IH]; intros s Hall; cbn [run]; [auto|].
  inversion Hall as [|? ? [Hp Hf] Hrest]; subst.
  destruct (IH (loop_body i s) Hrest) as [-> ->].
  rewrite loop_powerOn, loop_flagTriggered, Hf, toggle_event_iff, Hp.
  split; reflexivity.
Qed.

(** X8: the debouncer starts ready.  From power-on, after any number of
    passes without a pressed sample, the first pressed sample is accepted
    at once, whatever the fault input and the tick counter did meanwhile;
    when no fault was sampled either, that pass switches the power on, with
    the LED green and the enable output active. *)
Theorem first_press_is_accepted (pre : list input) (p : input) :
  Forall (fun i => pressed i = false) pre -> pressed p = true ->
  toggle_event p (run init_state pre) = true /\
  (Forall (fun i => fault_asserted i = false) (pre ++ [p]) ->
   powerOn (run init_state (pre ++ [p])) = 1 /\
   led_bits (run init_state (pre ++ [p])) = LED_GREEN /\
   power_output_active (run init_state (pre ++ [p])) = true).
Proof.
  intros Hpre Hp.
  destruct (idle_ready pre init_state eq_refl eq_refl Hpre) as [Hd Hb].
  assert (Ht : toggle_event p (run init_state pre) = true)
    by (rewrite toggle_event_iff, Hp, Hb, Hd; reflexivity).
  split; [exact Ht|]. intros Hnf.
  apply Forall_app in Hnf. destruct Hnf as [Hnf Hpf].
  inversion Hpf as [|? ? Hpf' _]; subst.
  assert (Hq : Forall (fun i => pressed i = false /\ fault_asserted i = false)
                 pre).
  { rewrite Forall_forall in *. intros x Hx. split; auto. }
  destruct (quiet_run pre init_state Hq) as [Hpow Hft].
  assert (Hon : powerOn (run init_state (pre ++ [p])) = 1).
  { rewrite run_app. cbn [run].
    rewrite loop_powerOn, Hpf', Ht, Hft, Hpow. reflexivity. }
  destruct (outputs_after_run (pre ++ [p]) init_state) as [Hled Hact].
  { destruct pre; discriminate. }
  rewrite Hled, Hact, Hon. repeat split.
Qed.

(** A fault pulse and 300 ticks first, then the press. *)
Lemma first_press_is_accepted_witness :
  let pre := sample false false true :: repeat (sample true false false) 300 in
  let p := sample true true false in
  (Forall (fun i => pressed i = false) pre /\ pressed p = true) /\
  toggle_event p (run init_state pre) = true.
Proof.
  cbv zeta.
  assert (H : Forall (fun i => pressed i = false)
                (sample false false true
                 :: repeat (sample true false false) 300)).
  { constructor; [reflexivity|].
    generalize 300%nat. intros n. induction n; simpl; constructor; auto. }
  split; [split; [exact H|reflexivity]|].
  exact (proj1 (first_press_is_accepted _ (sample true true false)
                  H eq_refl)).
Defined.

(** X9: a press accepted in a pass that also samples the fault is used up
    without effect.  The button code clears [debounceOk] and acknowledges
    or flips the power, and the flag code of the same pass latches the
    fault again and cuts the power: the pass ends with the fault latched,
    the power off, the LED red, and [debounceOk] clear, so that the next
    pass accepts no press either. *)
Theorem press_during_fault_is_used_up (i : input) (s : state) :
  toggle_event i s = true -> fault_asserted i = true ->
  let s' := loop_body i s in
  flagTriggered s' = 1 /\ powerOn s' = 0 /\ debounceOk s' = 0 /\
  led_bits s' = LED_RED /\ power_output_active s' = false /\
  (forall j, toggle_event j s' = false).
Proof.
  intros Ht Hf. cbv zeta.
  destruct (fault_pass i s Hf) as (A & B & C & D).
  assert (Hp : pressed i = true).
  { rewrite toggle_event_iff in Ht.
    destruct (pressed i); [reflexivity|discriminate]. }
  assert (Hd : debounceOk (loop_body i s) = 0)
    by (rewrite loop_debounceOk, Hp, Ht; reflexivity).
  repeat split; try assumption.
  intros j. rewrite toggle_event_iff, Hd. apply andb_false_r.
Qed.

(** An acknowledging press while the fault input is still low. *)
Lemma press_during_fault_is_used_up_witness :
  let s := run init_state [sample false false true] in
  let i := sample true true true in
  (c_true (flagTriggered s) = true /\ toggle_event i s = true /\
   fault_asserted i = true) /\
  flagTriggered (loop_body i s) = 1 /\ debounceOk (loop_body i s) = 0.
Proof.
  cbv zeta. split; [repeat split|].
  destruct (press_during_fault_is_used_up (sample true true true)
              (run init_state [sample false false true]) eq_refl eq_refl)
    as (A & _ & B & _).
  split; assumption.
Defined.

Lemma c_not_c_not x : is_flag x -> c_not (c_not x) = x.
Proof. intros [->| ->]; reflexivity. Qed.

(** X10: with no fault latched or sampled, the power state after a run is
    decided by the parity of the accepted presses: it is the start state
    after an even number of toggle events and its opposite after an odd
    number, and no fault gets latched. *)
Theorem power_follows_toggle_parity (s : state) (ins : list input) :
  c_true (flagTriggered s) = false -> is_flag (powerOn s) ->
  Forall (fun i => fault_asserted i = false) ins ->
  powerOn (run s ins) =
    (if Nat.even (count_toggles s ins) then powerOn s else c_not (powerOn s)) /\
  c_true (flagTriggered (run s ins)) = false.
Proof.
  revert s. induction ins as [|i ins IH]; intros s Hft Hp Hall;
    cbn [run count_toggles]; [auto|].
  inversion Hall as [|? ? Hi Hrest]; subst.
  assert (Hft' : c_true (flagTriggered (loop_body i s)) = false).
  { rewrite loop_flagTriggered, Hi.
    destruct (toggle_event i s); [reflexivity|exact Hft]. }
  assert (Hpow : powerOn (loop_body i s) =
                 if toggle_event i s then c_not (powerOn s) else powerOn s).
  { rewrite loop_powerOn, Hi, Hft.
    destruct (toggle_event i s); reflexivity. }
  destruct (IH (loop_body i s)) as [-> ->]; try assumption.
  - rewrite Hpow. destruct (toggle_event i s);
      [apply c_not_flag|exact Hp].
  - split; [|reflexivity]. rewrite Hpow.
    destruct (toggle_event i s).
    + change (1 + ?n)%nat with (S n). rewrite Nat.even_succ, <- Nat.negb_even.
      rewrite c_not_c_not by exact Hp.
      destruct (Nat.even (count_toggles (loop_body i s) ins)); reflexivity.
    + reflexivity.
Qed.

(** Three presses, duly spaced: the power ends up on. *)
Lemma power_follows_toggle_parity_witness :
  let press := sample true true false in
  let idle := sample true false false in
  let ins := [press; idle; idle; idle; press; idle; idle; idle; press] in
  (c_true (flagTriggered init_state) = false /\ is_flag (powerOn init_state) /\
   Forall (fun i => fault_asserted i = false) ins) /\
  count_toggles init_state ins = 3%nat /\
  powerOn (run init_state ins) =
    (if Nat.even (count_toggles init_state ins)
     then powerOn init_state else c_not (powerOn init_state)).
Proof.
  cbv zeta.
  assert (H : Forall (fun i => fault_asserted i = false)
                [sample true true false; sample true false false;
                 sample true false false; sample true false false;
                 sample true true false; sample true false false;
                 sample true false false; sample true false false;
                 sample true true false]) by (repeat constructor).
  assert (Hp : is_flag (powerOn init_state)) by (left; reflexivity).
  split; [split; [reflexivity|split; [exact Hp|exact H]]|].
  split; [vm_compute; reflexivity|].
  exact (proj1 (power_follows_toggle_parity init_state _ eq_refl Hp H)).
Defined.

(** X11: the fault indication is sticky.  Once a fault is latched in a
    state reached from power-on, every further pass without a toggle event
    leaves it latched with the power off, the LED red and the enable
    output inactive, whether or not the fault input is still asserted. *)
Theorem red_until_acknowledged (ins0 ins : list input) :
  let s := run init_state ins0 in
  c_true (flagTriggered s) = true -> count_toggles s ins = O ->
  let s' := run s ins in
  c_true (flagTriggered s') = true /\ powerOn s' = 0 /\
  led_bits s' = LED_RED /\ power_output_active s' = false.
Proof.
  cbv zeta. intros Hft Hc.
  pose proof (latch_survives ins _ Hft Hc) as Hft'.
  rewrite <- run_app in *.
  assert (Hnb : not_both (run init_state (ins0 ++ ins)))
    by (apply not_both_run; reflexivity).
  unfold not_both in Hnb. rewrite Hft', andb_true_r in Hnb.
  assert (Hne : ins0 ++ ins <> []).
  { destruct ins0; [discriminate Hft|discriminate]. }
  destruct (outputs_after_run (ins0 ++ ins) init_state Hne) as [Hled Hact].
  rewrite Hled, Hact, Hnb, Hft'.
  apply c_true_false_iff in Hnb. auto.
Qed.

(** A fault with the power on, then ten ticks with the input back high. *)
Lemma red_until_acknowledged_witness :
  let ins0 := [sample false true false; sample true false true] in
  let ins := repeat (sample true false false) 10 in
  (c_true (flagTriggered (run init_state ins0)) = true /\
   count_toggles (run init_state ins0) ins = O) /\
  led_bits (run (run init_state ins0) ins) = LED_RED /\
  power_output_active (run (run init_state ins0) ins) = false.
Proof.
  cbv zeta.
  assert (H1 : c_true (flagTriggered
                 (run init_state [sample false true false;
                                  sample true false true])) = true)
    by (vm_compute; reflexivity).
  assert (H2 : count_toggles
                 (run init_state [sample false true false;
                                  sample true false true])
                 (repeat (sample true false false) 10) = O)
    by (vm_compute; reflexivity).
  split; [split; assumption|].
  destruct (red_until_acknowledged
              [sample false true false; sample true false true]
              (repeat (sample true false false) 10) H1 H2)
    as (_ & _ & A & B).
  split; assumption.
Defined.

(** ** Waking up without a tick *)

Lemma state_eq (a b : state) :
  now a = now b -> btnState a = btnState b -> btnTime a = btnTime b ->
  flagTriggered a = flagTriggered b -> flagTrigTime a = flagTrigTime b ->
  flagSet a = flagSet b -> powerOn a = powerOn b ->
  debounceOk a = debounceOk b -> PORTB a = PORTB b -> DDRB a = DDRB b ->
  a = b.
Proof. destruct a, b. proj. intros. subst. reflexivity. Qed.

Lemma u8_bits_eq a b :
  is_u8 a -> is_u8 b ->
  (forall n, 0 <= n < 8 -> Z.testbit a n = Z.testbit b n) -> a = b.
Proof.
  unfold is_u8. intros Ha Hb H. apply Z.bits_inj'. intros n Hn.
  destruct (Z.lt_ge_cases n 8) as [Hlt|Hge]; [apply H; lia|].
  rewrite <- (Z.mod_small a 256), <- (Z.mod_small b 256) by assumption.
  change 256 with (2 ^ 8). now rewrite !Z.mod_pow2_bits_high by lia.
Qed.

Lemma land3_bits x y :
  Z.land x 3 = Z.land y 3 ->
  Z.testbit x 0 = Z.testbit y 0 /\ Z.testbit x 1 = Z.testbit y 1.
Proof.
  intros H. split.
  - assert (E := f_equal (fun z => Z.testbit z 0) H). cbv beta in E.
    rewrite !Z.land_spec in E. change (Z.testbit 3 0) with true in E.
    now rewrite !andb_true_r in E.
  - assert (E := f_equal (fun z => Z.testbit z 1) H). cbv beta in E.
    rewrite !Z.land_spec in E. change (Z.testbit 3 1) with true in E.
    now rewrite !andb_true_r in E.
Qed.

Lemma pin_bits s1 s2 :
  pin_follows_flagSet s1 -> pin_follows_flagSet s2 ->
  flagSet s2 = flagSet s1 ->
  Z.testbit (DDRB s2) 4 = Z.testbit (DDRB s1) 4 /\
  Z.testbit (PORTB s2) 4 = Z.testbit (PORTB s1) 4.
Proof.
  unfold pin_follows_flagSet, flag_driven_low, flag_released, DDB4, PORTB4.
  intros [L1 R1] [L2 R2] E. rewrite E in *.
  destruct (c_true (flagSet s1)), (Z.testbit (DDRB s1) 4),
    (Z.testbit (PORTB s1) 4), (Z.testbit (DDRB s2) 4),
    (Z.testbit (PORTB s2) 4); cbn [andb negb] in *;
    try discriminate; split; reflexivity.
Qed.

(** X12: waking up without a tick is harmless.  After a pass of the loop
    from a reachable state, a second pass that reads the same pin levels
    and finds no watchdog tick leaves every variable and both port
    registers exactly as they are, unless the fault input is asserted and
    the first pass has just ended a pulse (the second pass then starts the
    next one). *)
Theorem second_pass_without_tick (ins0 : list input) (i : input) :
  let s1 := loop_body i (run init_state ins0) in
  fault_asserted i = false \/ c_true (flagSet s1) = true ->
  loop_body (mkInput false (PINB i)) s1 = s1.
Proof.
  cbv zeta. set (s := run init_state ins0). set (s1 := loop_body i s).
  set (i' := mkInput false (PINB i)). intros Hyp.
  assert (Hpr : pressed i' = pressed i) by reflexivity.
  assert (Hfa : fault_asserted i' = fault_asserted i) by reflexivity.
  assert (Hnow : now (loop_body i' s1) = now s1)
    by (rewrite loop_now; reflexivity).
  assert (Hbs : c_true (btnState s1) = pressed i)
    by (unfold s1; rewrite loop_btnState; reflexivity).
  assert (Htg : toggle_event i' s1 = false).
  { rewrite toggle_event_iff, Hpr, Hbs. destruct (pressed i); reflexivity. }
  assert (Hft : flagTriggered (loop_body i' s1) = flagTriggered s1).
  { rewrite loop_flagTriggered, Htg, Hfa.
    destruct (fault_asserted i) eqn:E; [|reflexivity].
    unfold s1. rewrite loop_flagTriggered, E. reflexivity. }
  assert (Hpo : powerOn (loop_body i' s1) = powerOn s1).
  { rewrite loop_powerOn, Htg, Hfa. cbn [andb].
    destruct (fault_asserted i) eqn:E; [|reflexivity].
    unfold s1. rewrite loop_powerOn, E. reflexivity. }
  assert (Htt : flagTrigTime (loop_body i' s1) = flagTrigTime s1).
  { rewrite loop_flagTrigTime, Hfa.
    destruct Hyp as [->| ->]; [reflexivity|].
    cbn [negb]. now rewrite andb_false_r. }
  assert (Hfs : flagSet (loop_body i' s1) = flagSet s1).
  { pose proof (loop_flagSet i' s1) as H2. cbv zeta in H2.
    rewrite Hft, Hnow, Htt, Hfa in H2.
    pose proof (loop_flagSet i s) as H1. cbv zeta in H1. fold s1 in H1.
    destruct (fault_asserted i) eqn:E.
    - change (c_true 1) with true in H1, H2.
      destruct (c_true (flagTriggered s1) && true
                && (2 <=? elapsed8 (now s1) (flagTrigTime s1))).
      + destruct Hyp as [Hyp|Hyp]; [discriminate|].
        rewrite H1 in Hyp. discriminate.
      + congruence.
    - destruct (c_true (flagTriggered s1)),
        (2 <=? elapsed8 (now s1) (flagTrigTime s1));
        cbn [andb] in H1, H2; rewrite ?andb_false_r, ?andb_true_r in H1, H2;
        try exact H2.
      destruct (c_true (flagSet s)) eqn:E0.
      + rewrite H1 in H2. change (c_true 0) with false in H2.
        rewrite H2. symmetry. exact H1.
      + rewrite H1, E0 in H2. rewrite H2. symmetry. exact H1. }
  assert (Hwf1 : well_formed s1).
  { unfold s1, s. change (loop_body i (run init_state ins0))
      with (run (run init_state ins0) [i]).
    rewrite <- run_app. apply wf_run_from, wf_init. }
  assert (Hwf2 : well_formed (loop_body i' s1)) by (apply wf_loop, Hwf1).
  assert (Hpin1 : pin_follows_flagSet s1).
  { unfold s1, s. apply pin_follows_step, pin_follows_run.
    split; reflexivity. }
  assert (Hpin2 : pin_follows_flagSet (loop_body i' s1))
    by (apply pin_follows_step, Hpin1).
  destruct (pin_bits _ _ Hpin1 Hpin2 Hfs) as [HD4 HP4].
  apply state_eq; try assumption.
  - rewrite loop_btnState. unfold s1. rewrite loop_btnState. reflexivity.
  - rewrite loop_btnTime, Hpr, Hnow.
    destruct (pressed i) eqn:E; [|reflexivity].
    unfold s1 at 2. rewrite loop_btnTime, E. reflexivity.
  - rewrite loop_debounceOk, Htg, Hpr, Hnow.
    destruct (pressed i) eqn:E; [reflexivity|].
    assert (Hb : btnTime s1 = btnTime s)
      by (unfold s1; rewrite loop_btnTime, E; reflexivity).
    pose proof (loop_debounceOk i s) as H1. rewrite E in H1. fold s1 in H1.
    rewrite Hb.
    destruct (3 <=? elapsed8 (now s1) (btnTime s)); [|reflexivity].
    symmetry. exact H1.
  - apply u8_bits_eq; [apply Hwf2|apply Hwf1|]. intros n Hn.
    destruct (loop_outputs i' s1) as [Hl2 Ha2].
    destruct (loop_outputs i s) as [Hl1 Ha1]. fold s1 in Hl1, Ha1.
    rewrite Hft, Hpo, <- Hl1 in Hl2. rewrite Hpo, <- Ha1 in Ha2.
    destruct (land3_bits _ _ Hl2) as [B0 B1].
    unfold power_output_active, PORTB3 in Ha2.
    apply (f_equal negb) in Ha2. rewrite !negb_involutive in Ha2.
    destruct (loop_other_bits i' s1 n Hn) as [_ Hother].
    unfold PORTB2 in Hother.
    assert (Hc : n = 0 \/ n = 1 \/ n = 3 \/ n = 4 \/ n = 2 \/ 5 <= n) by lia.
    destruct Hc as [->|[->|[->|[->|Hc]]]]; auto.
  - apply u8_bits_eq; [apply Hwf2|apply Hwf1|]. intros n Hn.
    destruct (Z.eq_dec n 4) as [->|Hne]; [exact HD4|].
    apply (loop_other_bits i' s1 n Hn). exact Hne.
Qed.

(** A second look at a held button, with the power just switched on. *)
Lemma second_pass_without_tick_witness :
  let i := sample true true false in
  (fault_asserted i = false \/
   c_true (flagSet (loop_body i (run init_state []))) = true) /\
  loop_body (mkInput false (PINB i)) (loop_body i (run init_state []))
  = loop_body i (run init_state []) /\
  powerOn (loop_body i (run init_state [])) = 1.
Proof.
  cbv zeta. split; [left; reflexivity|].
  split; [|reflexivity].
  exact (second_pass_without_tick [] (sample true true false)
           (or_introl eq_refl)).
Defined.
